(** * SentIO: the per-tick touch pipeline of [SmartTouchComponent]

    A shallow embedding of [components/sentio/Sentio.cpp] and [Sentio.h]:
    the calibration transform, the gesture state machine, the release
    classifier and the [loop] dispatcher with its sleep / wake arbitration.

    Conventions of the embedding
    - [uint32_t] and [int] values are integers in [Z]; every operation that
      the C++ performs in a fixed width is written with its wrap-around
      ([wrap_u32], [wrap_s32], [wrap_s16]).
    - The object [*this] is split in two records: [Config], the fields that
      only the setters write, and [Runtime], the fields that [setup] and
      [loop] write.  Every method takes the configuration and the runtime
      state and returns the new runtime state.
    - What leaves the component is recorded as a list of [Event]s, oldest
      first: a call of [->trigger()] on a registered trigger, a call of
      [add_raw_touch_position_], a call of [touches.clear()].
    - [millis()] is read once per call of [loop]; that reading is the
      argument [now].  The logging macros have no effect on the component
      and are left out. *)

From Stdlib Require Import String.
From Stdlib Require Import ZArith List Bool Lia.
Import ListNotations.

#[local] Open Scope Z_scope.

Module sentio.

(** ** Machine integers *)

Definition wrap_u32 (z : Z) : Z := z mod 2 ^ 32.

Definition wrap_s32 (z : Z) : Z := (z + 2 ^ 31) mod 2 ^ 32 - 2 ^ 31.

Definition wrap_s16 (z : Z) : Z := (z + 2 ^ 15) mod 2 ^ 16 - 2 ^ 15.

(** [a - b] on two [uint32_t] operands. *)
Definition sub_u32 (a b : Z) : Z := wrap_u32 (a - b).

(** [abs] of <cstdlib> on an [int]. *)
Definition abs_int (z : Z) : Z := wrap_s32 (Z.abs z).

(** The value [millis()] returns when [t] milliseconds have passed since
    boot: a 32-bit counter that rolls over. *)
Definition millis_at (t : Z) : Z := wrap_u32 t.

(** ** Constants of Sentio.cpp *)

Definition SWIPE_THRESHOLD : Z := 30.
Definition MAX_TAP_TIME : Z := 400.

(** ** Data *)

Inductive TouchState : Set :=
| STATE_IDLE
| STATE_START
| STATE_DRAGGING
| STATE_RELEASED.

(** Modelled from the spec: [touchscreen::TouchPoint] is declared in
    esphome's touchscreen.h, which is not among the sources.  The spec gives
    a sample as an identifier, an integer x, an integer y and a pressure;
    Sentio.cpp reads and writes exactly the fields [id], [x], [y] and
    [pressure]. *)
Record TouchPoint : Set := mkTouchPoint {
  id : Z;
  x : Z;
  y : Z;
  pressure : Z
}.

(** The five automation hooks. *)
Inductive TriggerKind : Set :=
| OnSwipeLeft
| OnSwipeRight
| OnTap
| OnWake
| OnSleep.

(** What the component does to its collaborators.  The output sink is the
    [touchscreen::Touchscreen] base class, which is not among the sources:
    its [add_raw_touch_position_] and its [touches] buffer are recorded as
    events and not interpreted. *)
Inductive Event : Set :=
| Fired (k : TriggerKind)          (* a registered trigger's [trigger()] *)
| AddRawTouch (p : TouchPoint)     (* [add_raw_touch_position_(id,x,y,pressure)] *)
| TouchesClear.                    (* [this->touches.clear()] *)

(** Fields written by the setters only.  A pointer field is [true] when it
    is not [nullptr]. *)
Record Config : Set := mkConfig {
  source_driver_ : bool;
  display_width_ : Z;
  display_height_ : Z;
  sleep_timeout_ms_ : Z;
  suppress_wake_click_ : bool;
  swap_xy_ : bool;
  invert_x_ : bool;
  invert_y_ : bool;
  debug_raw_ : bool;
  debounce_ms_ : Z;
  on_swipe_left_ : bool;
  on_swipe_right_ : bool;
  on_tap_ : bool;
  on_wake_ : bool;
  on_sleep_ : bool
}.

(** Fields written by [setup] and [loop]. *)
Record Runtime : Set := mkRuntime {
  last_activity_time_ : Z;
  is_sleeping_ : bool;
  ignore_next_release_ : bool;
  state_ : TouchState;
  gesture_start_time_ : Z;
  start_x_ : Z;
  start_y_ : Z
}.

(** The member initialisers of Sentio.h. *)
Definition initial : Runtime :=
  {| last_activity_time_ := 0;
     is_sleeping_ := false;
     ignore_next_release_ := false;
     state_ := STATE_IDLE;
     gesture_start_time_ := 0;
     start_x_ := 0;
     start_y_ := 0 |}.

Definition set_last_activity_time (t : Z) (s : Runtime) : Runtime :=
  {| last_activity_time_ := t;
     is_sleeping_ := is_sleeping_ s;
     ignore_next_release_ := ignore_next_release_ s;
     state_ := state_ s;
     gesture_start_time_ := gesture_start_time_ s;
     start_x_ := start_x_ s;
     start_y_ := start_y_ s |}.

Definition set_is_sleeping (b : bool) (s : Runtime) : Runtime :=
  {| last_activity_time_ := last_activity_time_ s;
     is_sleeping_ := b;
     ignore_next_release_ := ignore_next_release_ s;
     state_ := state_ s;
     gesture_start_time_ := gesture_start_time_ s;
     start_x_ := start_x_ s;
     start_y_ := start_y_ s |}.

Definition set_ignore_next_release (b : bool) (s : Runtime) : Runtime :=
  {| last_activity_time_ := last_activity_time_ s;
     is_sleeping_ := is_sleeping_ s;
     ignore_next_release_ := b;
     state_ := state_ s;
     gesture_start_time_ := gesture_start_time_ s;
     start_x_ := start_x_ s;
     start_y_ := start_y_ s |}.

Definition set_state (st : TouchState) (s : Runtime) : Runtime :=
  {| last_activity_time_ := last_activity_time_ s;
     is_sleeping_ := is_sleeping_ s;
     ignore_next_release_ := ignore_next_release_ s;
     state_ := st;
     gesture_start_time_ := gesture_start_time_ s;
     start_x_ := start_x_ s;
     start_y_ := start_y_ s |}.

(** The three assignments of [case STATE_IDLE]; [start_x_] and [start_y_]
    are [int16_t], so the [int] coordinate is narrowed. *)
Definition start_gesture (now : Z) (p : TouchPoint) (s : Runtime) : Runtime :=
  {| last_activity_time_ := last_activity_time_ s;
     is_sleeping_ := is_sleeping_ s;
     ignore_next_release_ := ignore_next_release_ s;
     state_ := STATE_START;
     gesture_start_time_ := now;
     start_x_ := wrap_s16 (x p);
     start_y_ := wrap_s16 (y p) |}.

Definition TouchState_eqb (a b : TouchState) : bool :=
  match a, b with
  | STATE_IDLE, STATE_IDLE
  | STATE_START, STATE_START
  | STATE_DRAGGING, STATE_DRAGGING
  | STATE_RELEASED, STATE_RELEASED => true
  | _, _ => false
  end.

Definition TriggerKind_eqb (a b : TriggerKind) : bool :=
  match a, b with
  | OnSwipeLeft, OnSwipeLeft
  | OnSwipeRight, OnSwipeRight
  | OnTap, OnTap
  | OnWake, OnWake
  | OnSleep, OnSleep => true
  | _, _ => false
  end.

(** [if (t) t->trigger();] *)
Definition fire (registered : bool) (k : TriggerKind) : list Event :=
  if registered then [Fired k] else [].

(** ** Reading the event log *)

Definition is_fired (k : TriggerKind) (e : Event) : bool :=
  match e with
  | Fired k' => TriggerKind_eqb k k'
  | _ => false
  end.

(** How many times trigger [k] fired. *)
Definition count_fired (k : TriggerKind) (evs : list Event) : nat :=
  length (filter (is_fired k) evs).

(** The triggers that fired, in order. *)
Definition triggers (evs : list Event) : list TriggerKind :=
  flat_map (fun e => match e with Fired k => [k] | _ => [] end) evs.

(** The points handed to the output sink, in order. *)
Definition forwarded (evs : list Event) : list TouchPoint :=
  flat_map (fun e => match e with AddRawTouch p => [p] | _ => [] end) evs.

(** ** The methods of [SmartTouchComponent] *)

Section Component.

Variable cfg : Config.

(** [SmartTouchComponent::setup] *)
Definition setup (now : Z) (s : Runtime) : Runtime :=
  set_last_activity_time now s.

(** [SmartTouchComponent::apply_calibration] *)
Definition apply_calibration (p : TouchPoint) : TouchPoint :=
  let x0 := x p in
  let y0 := y p in
  (* 1. Swap *)
  let x1 := if swap_xy_ cfg then y0 else x0 in
  let y1 := if swap_xy_ cfg then x0 else y0 in
  (* 2. Invert *)
  let width := if swap_xy_ cfg then display_height_ cfg else display_width_ cfg in
  let height := if swap_xy_ cfg then display_width_ cfg else display_height_ cfg in
  let x2 := if invert_x_ cfg then wrap_s32 (width - x1) else x1 in
  let y2 := if invert_y_ cfg then wrap_s32 (height - y1) else y1 in
  (* Clamp to 0 *)
  let x3 := if x2 <? 0 then 0 else x2 in
  let y3 := if y2 <? 0 then 0 else y2 in
  {| id := id p; x := x3; y := y3; pressure := pressure p |}.

(** [SmartTouchComponent::process_gestures].  The [switch] has no label for
    [STATE_RELEASED]: nothing runs for it. *)
Definition process_gestures (now : Z) (p : TouchPoint) (s : Runtime)
  : Runtime * list Event :=
  match state_ s with
  | STATE_IDLE => (start_gesture now p s, [])
  | STATE_START =>
      let dx := wrap_s32 (x p - start_x_ s) in
      (* [dy] is computed and never read *)
      if SWIPE_THRESHOLD <? abs_int dx then
        (set_state STATE_DRAGGING s,
         if 0 <? dx then fire (on_swipe_right_ cfg) OnSwipeRight
         else fire (on_swipe_left_ cfg) OnSwipeLeft)
      else (s, [])
  | STATE_DRAGGING => (s, [])
  | STATE_RELEASED => (s, [])
  end.

(** [millis() - this->gesture_start_time_] *)
Definition release_duration (now : Z) (s : Runtime) : Z :=
  sub_u32 now (gesture_start_time_ s).

(** [SmartTouchComponent::handle_release]; it writes no field. *)
Definition handle_release (now : Z) (s : Runtime) : list Event :=
  match state_ s with
  | STATE_START =>
      let duration := release_duration now s in
      if duration <? debounce_ms_ cfg then [TouchesClear]
      else if duration <? MAX_TAP_TIME then fire (on_tap_ cfg) OnTap
      else []
  | _ => []
  end.

(** [millis() - this->last_activity_time_ > this->sleep_timeout_ms_] *)
Definition idle_elapsed (now : Z) (s : Runtime) : Z :=
  sub_u32 now (last_activity_time_ s).

Definition sleep_timeout_exceeded (now : Z) (s : Runtime) : bool :=
  sleep_timeout_ms_ cfg <? idle_elapsed now s.

(** Step 1 of [loop]: SLEEP CHECK. *)
Definition sleep_check (now : Z) (s : Runtime) : Runtime * list Event :=
  if sleep_timeout_exceeded now s then
    if negb (is_sleeping_ s) then
      (set_is_sleeping true s, fire (on_sleep_ cfg) OnSleep)
    else (s, [])
  else (s, []).

(** Step 3 of [loop]: RELEASE LOGIC, the branch taken when the source has
    no touch. *)
Definition release_logic (now : Z) (s : Runtime) : Runtime * list Event :=
  if negb (TouchState_eqb (state_ s) STATE_IDLE) then
    (set_ignore_next_release false (set_state STATE_IDLE s),
     handle_release now s ++ [TouchesClear])
  else (s, []).

(** Steps 4 to 8 of [loop], the branch taken for the touch [raw_p]. *)
Definition touch_logic (now : Z) (raw_p : TouchPoint) (s : Runtime)
  : Runtime * list Event :=
  (* 5. WAKE LOGIC *)
  let woke := is_sleeping_ s in
  let s1 := if woke then set_last_activity_time now (set_is_sleeping false s)
            else s in
  let e1 := if woke then fire (on_wake_ cfg) OnWake else [] in
  if woke && suppress_wake_click_ cfg then
    (set_ignore_next_release true s1, e1)
  else
    (* Reset timer *)
    let s2 := set_last_activity_time now s1 in
    if ignore_next_release_ s2 then (s2, e1)
    else
      (* 6, 7, 8 *)
      let p := apply_calibration raw_p in
      let '(s3, e3) := process_gestures now p s2 in
      (s3, e1 ++ e3 ++ [AddRawTouch p]).

(** [SmartTouchComponent::loop]; [src_touches] is the source driver's
    [touches] vector at this call. *)
Definition loop (now : Z) (src_touches : list TouchPoint) (s : Runtime)
  : Runtime * list Event :=
  if negb (source_driver_ cfg) then (s, [])
  else
    let '(s1, e1) := sleep_check now s in
    match src_touches with
    | [] =>
        let '(s2, e2) := release_logic now s1 in (s2, e1 ++ e2)
    | raw_p :: _ =>
        let '(s2, e2) := touch_logic now raw_p s1 in (s2, e1 ++ e2)
    end.

(** ** Executions: a call of [loop] per tick *)

(** A tick: the clock reading and the source's touches. *)
Definition Tick : Set := (Z * list TouchPoint)%type.

Definition has_sample (t : Tick) : bool :=
  match snd t with [] => false | _ :: _ => true end.

Fixpoint run (ticks : list Tick) (s : Runtime) : Runtime * list Event :=
  match ticks with
  | [] => (s, [])
  | (now, src_touches) :: rest =>
      let '(s1, e1) := loop now src_touches s in
      let '(s2, e2) := run rest s1 in
      (s2, e1 ++ e2)
  end.

(** The component after [setup] at clock reading [t0] and the given ticks. *)
Definition boot (t0 : Z) (ticks : list Tick) : Runtime * list Event :=
  run ticks (setup t0 initial).

(** How many swipes fired, left and right together. *)
Definition count_swipes (evs : list Event) : nat :=
  (count_fired OnSwipeLeft evs + count_fired OnSwipeRight evs)%nat.

(** The times of consecutive calls of [loop] are never further apart than
    the sleep timeout, starting from the reading [last]. *)
Fixpoint within_timeout (last : Z) (times : list Z) : bool :=
  match times with
  | [] => true
  | t :: rest =>
      (sub_u32 t last <=? sleep_timeout_ms_ cfg) && within_timeout t rest
  end.

End Component.

(** ** Properties of event logs and of ticks *)

(** Nothing of a contact reaches a consumer: no point is handed to the
    output sink and no tap or swipe fires. *)
Definition swallowed (evs : list Event) : Prop :=
  forwarded evs = [] /\
  count_fired OnTap evs = 0%nat /\
  count_fired OnSwipeLeft evs = 0%nat /\
  count_fired OnSwipeRight evs = 0%nat.

(** The gesture fields of the component. *)
Definition gesture_of (s : Runtime) : TouchState * Z * Z * Z :=
  (state_ s, gesture_start_time_ s, start_x_ s, start_y_ s).

(** Wake-click suppression as a property of the ticks of one contact: if
    suppression is configured and the contact woke the component, the wake
    trigger fired once and the contact is swallowed. *)
Definition wake_click_suppressed (cfg : Config) (s : Runtime)
  (contact : list Tick) : Prop :=
  let evs := snd (run cfg contact s) in
  suppress_wake_click_ cfg = true ->
  (0 < count_fired OnWake evs)%nat ->
  count_fired OnWake evs = 1%nat /\ swallowed evs.

(** At most one of the sleep and the wake trigger fires in a call of
    [loop]. *)
Definition sleep_wake_exclusive (cfg : Config) (now : Z)
  (src_touches : list TouchPoint) (s : Runtime) : Prop :=
  let evs := snd (loop cfg now src_touches s) in
  (count_fired OnSleep evs + count_fired OnWake evs <= 1)%nat.

(** After a call of [loop] the gesture state is [STATE_IDLE] exactly when
    the source had no touch. *)
Definition idle_iff_no_contact (cfg : Config) (now : Z)
  (src_touches : list TouchPoint) (s : Runtime) : Prop :=
  state_ (fst (loop cfg now src_touches s)) = STATE_IDLE <-> src_touches = [].

(** The release of a wake-suppressed contact clears the trap. *)
Definition trap_cleared_on_release (cfg : Config) (t0 : Z)
  (before : list Tick) (t_rel : Z) : Prop :=
  ignore_next_release_ (fst (boot cfg t0 before)) = true ->
  ignore_next_release_ (fst (boot cfg t0 (before ++ [(t_rel, [])]))) = false.

(** ** Scenarios *)

Definition point (px py : Z) : TouchPoint :=
  {| id := 0; x := px; y := py; pressure := 0 |}.

(** A 320x240 display, every trigger registered, no swap and no inversion. *)
Definition display_cfg (timeout : Z) (suppress : bool) : Config :=
  {| source_driver_ := true;
     display_width_ := 320;
     display_height_ := 240;
     sleep_timeout_ms_ := timeout;
     suppress_wake_click_ := suppress;
     swap_xy_ := false;
     invert_x_ := false;
     invert_y_ := false;
     debug_raw_ := false;
     debounce_ms_ := 20;
     on_swipe_left_ := true;
     on_swipe_right_ := true;
     on_tap_ := true;
     on_wake_ := true;
     on_sleep_ := true |}.

(** The same display with [swap_xy] and [invert_x]. *)
Definition rotated_cfg : Config :=
  {| source_driver_ := true;
     display_width_ := 320;
     display_height_ := 240;
     sleep_timeout_ms_ := 30000;
     suppress_wake_click_ := true;
     swap_xy_ := true;
     invert_x_ := true;
     invert_y_ := false;
     debug_raw_ := false;
     debounce_ms_ := 20;
     on_swipe_left_ := true;
     on_swipe_right_ := true;
     on_tap_ := true;
     on_wake_ := true;
     on_sleep_ := true |}.

(** Idle past a 1000 ms timeout, then a wake click and its release. *)
Definition wake_click_ticks : list Tick :=
  [(1001, []); (2000, [point 100 100]); (2100, [])].

(** A 200 ms tap at (50,50). *)
Definition tap_ticks : list Tick :=
  [(3000, [point 50 50]); (3200, [])].

(** A contact that starts awake and is still down when a 100 ms timeout
    expires between two calls of [loop]. *)
Definition slow_ticks : list Tick :=
  [(10, [point 50 50]); (200, [point 50 50]); (300, [])].

(** A contact that wakes the component and is then polled again only
    after a 100 ms timeout has expired once more. *)
Definition resleep_ticks : list Tick :=
  [(300, [point 50 50]); (500, [point 50 50]); (600, [])].

(** A runtime state in the middle of a gesture that started at (100,100). *)
Definition started_at_100 : Runtime :=
  {| last_activity_time_ := 0;
     is_sleeping_ := false;
     ignore_next_release_ := false;
     state_ := STATE_START;
     gesture_start_time_ := 0;
     start_x_ := 100;
     start_y_ := 100 |}.

(** A sleeping component, as [wake_click_ticks] leaves it after its first
    tick. *)
Definition asleep : Runtime :=
  {| last_activity_time_ := 0;
     is_sleeping_ := true;
     ignore_next_release_ := false;
     state_ := STATE_IDLE;
     gesture_start_time_ := 0;
     start_x_ := 0;
     start_y_ := 0 |}.

(** A gesture that started 100 ms before the clock rolls over. *)
Definition before_rollover : Runtime :=
  {| last_activity_time_ := 4294967196;
     is_sleeping_ := false;
     ignore_next_release_ := false;
     state_ := STATE_START;
     gesture_start_time_ := 4294967196;
     start_x_ := 100;
     start_y_ := 100 |}.

(** ** The trigger registry of Sentio.h and Sentio.cpp *)

(** The five trigger setters of Sentio.h; the argument is [true] for a
    pointer that is not [nullptr]. *)
Definition set_on_swipe_left (t : bool) (c : Config) : Config :=
  {|   source_driver_ := source_driver_ c;
     display_width_ := display_width_ c;
     display_height_ := display_height_ c;
     sleep_timeout_ms_ := sleep_timeout_ms_ c;
     suppress_wake_click_ := suppress_wake_click_ c;
     swap_xy_ := swap_xy_ c;
     invert_x_ := invert_x_ c;
     invert_y_ := invert_y_ c;
     debug_raw_ := debug_raw_ c;
     debounce_ms_ := debounce_ms_ c;
     on_swipe_left_ := t;
     on_swipe_right_ := on_swipe_right_ c;
     on_tap_ := on_tap_ c;
     on_wake_ := on_wake_ c;
     on_sleep_ := on_sleep_ c |}.

Definition set_on_swipe_right (t : bool) (c : Config) : Config :=
  {|   source_driver_ := source_driver_ c;
     display_width_ := display_width_ c;
     display_height_ := display_height_ c;
     sleep_timeout_ms_ := sleep_timeout_ms_ c;
     suppress_wake_click_ := suppress_wake_click_ c;
     swap_xy_ := swap_xy_ c;
     invert_x_ := invert_x_ c;
     invert_y_ := invert_y_ c;
     debug_raw_ := debug_raw_ c;
     debounce_ms_ := debounce_ms_ c;
     on_swipe_left_ := on_swipe_left_ c;
     on_swipe_right_ := t;
     on_tap_ := on_tap_ c;
     on_wake_ := on_wake_ c;
     on_sleep_ := on_sleep_ c |}.

Definition set_on_tap (t : bool) (c : Config) : Config :=
  {|   source_driver_ := source_driver_ c;
     display_width_ := display_width_ c;
     display_height_ := display_height_ c;
     sleep_timeout_ms_ := sleep_timeout_ms_ c;
     suppress_wake_click_ := suppress_wake_click_ c;
     swap_xy_ := swap_xy_ c;
     invert_x_ := invert_x_ c;
     invert_y_ := invert_y_ c;
     debug_raw_ := debug_raw_ c;
     debounce_ms_ := debounce_ms_ c;
     on_swipe_left_ := on_swipe_left_ c;
     on_swipe_right_ := on_swipe_right_ c;
     on_tap_ := t;
     on_wake_ := on_wake_ c;
     on_sleep_ := on_sleep_ c |}.

Definition set_on_wake (t : bool) (c : Config) : Config :=
  {|   source_driver_ := source_driver_ c;
     display_width_ := display_width_ c;
     display_height_ := display_height_ c;
     sleep_timeout_ms_ := sleep_timeout_ms_ c;
     suppress_wake_click_ := suppress_wake_click_ c;
     swap_xy_ := swap_xy_ c;
     invert_x_ := invert_x_ c;
     invert_y_ := invert_y_ c;
     debug_raw_ := debug_raw_ c;
     debounce_ms_ := debounce_ms_ c;
     on_swipe_left_ := on_swipe_left_ c;
     on_swipe_right_ := on_swipe_right_ c;
     on_tap_ := on_tap_ c;
     on_wake_ := t;
     on_sleep_ := on_sleep_ c |}.

Definition set_on_sleep (t : bool) (c : Config) : Config :=
  {|   source_driver_ := source_driver_ c;
     display_width_ := display_width_ c;
     display_height_ := display_height_ c;
     sleep_timeout_ms_ := sleep_timeout_ms_ c;
     suppress_wake_click_ := suppress_wake_click_ c;
     swap_xy_ := swap_xy_ c;
     invert_x_ := invert_x_ c;
     invert_y_ := invert_y_ c;
     debug_raw_ := debug_raw_ c;
     debounce_ms_ := debounce_ms_ c;
     on_swipe_left_ := on_swipe_left_ c;
     on_swipe_right_ := on_swipe_right_ c;
     on_tap_ := on_tap_ c;
     on_wake_ := on_wake_ c;
     on_sleep_ := t |}.

(** [SmartTouchComponent::get_trigger]: the pointer stored under the
    configuration key [conf], [nullptr] for any other string. *)
Definition get_trigger (cfg : Config) (conf : string) : bool :=
  if String.eqb conf "on_swipe_left" then on_swipe_left_ cfg
  else if String.eqb conf "on_swipe_right" then on_swipe_right_ cfg
  else if String.eqb conf "on_tap" then on_tap_ cfg
  else if String.eqb conf "on_wake" then on_wake_ cfg
  else if String.eqb conf "on_sleep" then on_sleep_ cfg
  else false.

(** The configuration key of each hook, its field and its setter. *)
Definition trigger_name (k : TriggerKind) : string :=
  match k with
  | OnSwipeLeft => "on_swipe_left"
  | OnSwipeRight => "on_swipe_right"
  | OnTap => "on_tap"
  | OnWake => "on_wake"
  | OnSleep => "on_sleep"
  end.

Definition registered (cfg : Config) (k : TriggerKind) : bool :=
  match k with
  | OnSwipeLeft => on_swipe_left_ cfg
  | OnSwipeRight => on_swipe_right_ cfg
  | OnTap => on_tap_ cfg
  | OnWake => on_wake_ cfg
  | OnSleep => on_sleep_ cfg
  end.

Definition set_trigger (k : TriggerKind) : bool -> Config -> Config :=
  match k with
  | OnSwipeLeft => set_on_swipe_left
  | OnSwipeRight => set_on_swipe_right
  | OnTap => set_on_tap
  | OnWake => set_on_wake
  | OnSleep => set_on_sleep
  end.

(** ** Reading a list of ticks *)

(** The touch that [loop] reads at each tick that has one: [src_touches[0]]. *)
Definition first_touches (ticks : list Tick) : list TouchPoint :=
  flat_map (fun t => match snd t with [] => [] | p :: _ => [p] end) ticks.

(** The tick's touch, once calibrated, is within the swipe threshold of the
    start abscissa [sx]. *)
Definition stays_put (cfg : Config) (sx : Z) (t : Tick) : bool :=
  match snd t with
  | [] => true
  | p :: _ =>
      negb (SWIPE_THRESHOLD <? abs_int (wrap_s32 (x (apply_calibration cfg p) - sx)))
  end.

Definition idle_tick (t : Tick) : bool := negb (has_sample t).

(** A point of the display rectangle. *)
Definition on_display (cfg : Config) (p : TouchPoint) : Prop :=
  0 <= x p <= display_width_ cfg /\ 0 <= y p <= display_height_ cfg.

(** A 320x240 display with [invert_x] and [invert_y]. *)
Definition mirrored_cfg : Config :=
  {| source_driver_ := true;
     display_width_ := 320;
     display_height_ := 240;
     sleep_timeout_ms_ := 30000;
     suppress_wake_click_ := false;
     swap_xy_ := false;
     invert_x_ := true;
     invert_y_ := true;
     debug_raw_ := false;
     debounce_ms_ := 20;
     on_swipe_left_ := true;
     on_swipe_right_ := true;
     on_tap_ := true;
     on_wake_ := true;
     on_sleep_ := true |}.

(** A component on which no setter has registered a trigger. *)
Definition unregistered_cfg : Config :=
  {| source_driver_ := true;
     display_width_ := 320;
     display_height_ := 240;
     sleep_timeout_ms_ := 30000;
     suppress_wake_click_ := true;
     swap_xy_ := false;
     invert_x_ := false;
     invert_y_ := false;
     debug_raw_ := false;
     debounce_ms_ := 20;
     on_swipe_left_ := false;
     on_swipe_right_ := false;
     on_tap_ := false;
     on_wake_ := false;
     on_sleep_ := false |}.

(** A component whose source driver was never set. *)
Definition unbound_cfg : Config :=
  {| source_driver_ := false;
     display_width_ := 320;
     display_height_ := 240;
     sleep_timeout_ms_ := 1000;
     suppress_wake_click_ := true;
     swap_xy_ := false;
     invert_x_ := false;
     invert_y_ := false;
     debug_raw_ := false;
     debounce_ms_ := 20;
     on_swipe_left_ := true;
     on_swipe_right_ := true;
     on_tap_ := true;
     on_wake_ := true;
     on_sleep_ := true |}.

(** A display whose debounce threshold is not below the tap limit. *)
Definition slow_debounce_cfg : Config :=
  {| source_driver_ := true;
     display_width_ := 320;
     display_height_ := 240;
     sleep_timeout_ms_ := 30000;
     suppress_wake_click_ := false;
     swap_xy_ := false;
     invert_x_ := false;
     invert_y_ := false;
     debug_raw_ := false;
     debounce_ms_ := 400;
     on_swipe_left_ := true;
     on_swipe_right_ := true;
     on_tap_ := true;
     on_wake_ := true;
     on_sleep_ := true |}.

(** An awake component between two contacts. *)
Definition awake_idle : Runtime :=
  {| last_activity_time_ := 1000;
     is_sleeping_ := false;
     ignore_next_release_ := false;
     state_ := STATE_IDLE;
     gesture_start_time_ := 0;
     start_x_ := 0;
     start_y_ := 0 |}.

(** The trap armed on an idle state machine, as a suppressed wake click
    leaves it. *)
Definition trapped : Runtime :=
  {| last_activity_time_ := 2000;
     is_sleeping_ := false;
     ignore_next_release_ := true;
     state_ := STATE_IDLE;
     gesture_start_time_ := 0;
     start_x_ := 0;
     start_y_ := 0 |}.

(** A gesture that started at display abscissa 220 on [mirrored_cfg], that
    is at raw abscissa 100. *)
Definition started_mirrored : Runtime :=
  {| last_activity_time_ := 1000;
     is_sleeping_ := false;
     ignore_next_release_ := false;
     state_ := STATE_START;
     gesture_start_time_ := 1000;
     start_x_ := 220;
     start_y_ := 140 |}.

(** ** Proof automation *)

(** Case analysis on every test of the goal, reducing in between. *)
Ltac split_tests :=
  repeat (cbn;
          match goal with
          | |- context [TouchState_eqb (state_ ?s) _] =>
              destruct (state_ s) eqn:?
          | |- context [if negb ?b then _ else _] => destruct b eqn:?
          | |- context [if ?a && _ then _ else _] => destruct a eqn:?
          | |- context [if ?b then _ else _] => destruct b eqn:?
          | |- context [match state_ ?s with _ => _ end] =>
              destruct (state_ s) eqn:?
          end);
  cbn.

(** * Machine arithmetic *)

Lemma wrap_s32_small z :
  - 2 ^ 31 <= z < 2 ^ 31 -> wrap_s32 z = z.
Proof.
  intros Hz. unfold wrap_s32.
  rewrite Z.mod_small; lia.
Qed.

Lemma abs_int_small z :
  - 2 ^ 31 < z < 2 ^ 31 -> abs_int z = Z.abs z.
Proof.
  intros Hz. unfold abs_int. apply wrap_s32_small. lia.
Qed.

(** Subtraction of two clock readings is subtraction of the times, modulo
    the width of the counter. *)
Lemma sub_u32_millis a b :
  sub_u32 (millis_at a) (millis_at b) = (a - b) mod 2 ^ 32.
Proof.
  unfold sub_u32, millis_at, wrap_u32.
  rewrite <- Zminus_mod. reflexivity.
Qed.

Lemma sub_u32_elapsed t0 t1 :
  t0 <= t1 < t0 + 2 ^ 32 -> sub_u32 (millis_at t1) (millis_at t0) = t1 - t0.
Proof.
  intros Ht. rewrite sub_u32_millis. apply Z.mod_small. lia.
Qed.

(** * The calibration transform *)

(** C5.  Calibration swaps before it inverts, and inverts against the
    swapped extent: with [swap_xy] and [invert_x] (and no [invert_y]) the
    returned x is the configured display HEIGHT minus the input y, and the
    returned y is the input x, each clamped at 0.  On the 320x240 display the
    point (10, 5) becomes (240 - 5, 10) = (235, 10). *)
Theorem apply_calibration_swap_then_invert :
  apply_calibration rotated_cfg (point 10 5) = point 235 10 /\
  forall cfg p,
    swap_xy_ cfg = true -> invert_x_ cfg = true -> invert_y_ cfg = false ->
    - 2 ^ 31 <= display_height_ cfg - y p < 2 ^ 31 ->
    x (apply_calibration cfg p) = Z.max 0 (display_height_ cfg - y p) /\
    y (apply_calibration cfg p) = Z.max 0 (x p).
Proof.
  split; [reflexivity|].
  intros cfg p Hswap Hix Hiy Hrange.
  unfold apply_calibration. rewrite Hswap, Hix, Hiy. cbn [x y].
  rewrite (wrap_s32_small _ Hrange).
  split.
  - destruct (Z.ltb_spec (display_height_ cfg - y p) 0); lia.
  - destruct (Z.ltb_spec (x p) 0); lia.
Qed.

Lemma apply_calibration_swap_then_invert_witness :
  x (apply_calibration rotated_cfg (point 10 5)) = Z.max 0 (240 - 5) /\
  y (apply_calibration rotated_cfg (point 10 5)) = Z.max 0 10.
Proof.
  apply (proj2 apply_calibration_swap_then_invert rotated_cfg (point 10 5));
    try reflexivity.
  cbn. lia.
Defined.

(** C8.  With [swap_xy], [invert_x] and [invert_y] all false, calibration
    returns its argument for every point whose coordinates are not
    negative. *)
Theorem apply_calibration_default_identity cfg p :
  swap_xy_ cfg = false -> invert_x_ cfg = false -> invert_y_ cfg = false ->
  0 <= x p -> 0 <= y p ->
  apply_calibration cfg p = p.
Proof.
  intros Hswap Hix Hiy Hx Hy.
  unfold apply_calibration. rewrite Hswap, Hix, Hiy.
  destruct p as [i px py pr]; cbn in *.
  destruct (Z.ltb_spec px 0); [lia|].
  destruct (Z.ltb_spec py 0); [lia|].
  reflexivity.
Qed.

Lemma apply_calibration_default_identity_witness :
  apply_calibration (display_cfg 30000 true) (point 319 239) = point 319 239.
Proof.
  apply (apply_calibration_default_identity (display_cfg 30000 true)
           (point 319 239)); try reflexivity; cbn; lia.
Defined.

(** C10.  Calibration writes the x and y fields only: the identifier and
    the pressure of the returned point are those of the argument, whatever
    the configuration. *)
Theorem apply_calibration_frame cfg p :
  id (apply_calibration cfg p) = id p /\
  pressure (apply_calibration cfg p) = pressure p.
Proof. unfold apply_calibration. split; reflexivity. Qed.

(** * Event logs *)

Lemma count_fired_app k e1 e2 :
  count_fired k (e1 ++ e2) = (count_fired k e1 + count_fired k e2)%nat.
Proof.
  unfold count_fired. rewrite filter_app, length_app. reflexivity.
Qed.

Lemma count_swipes_app e1 e2 :
  count_swipes (e1 ++ e2) = (count_swipes e1 + count_swipes e2)%nat.
Proof.
  unfold count_swipes. rewrite !count_fired_app. lia.
Qed.

Lemma forwarded_app e1 e2 : forwarded (e1 ++ e2) = forwarded e1 ++ forwarded e2.
Proof. unfold forwarded. apply flat_map_app. Qed.

Lemma triggers_app e1 e2 : triggers (e1 ++ e2) = triggers e1 ++ triggers e2.
Proof. unfold triggers. apply flat_map_app. Qed.

(** * Elapsed time *)

(** C9.  The idle time of the sleep check and the duration of the release
    classifier are 32-bit unsigned differences, clock now minus clock then.
    They are the elapsed time modulo 2^32, and for two instants less than
    2^32 ms apart they are the elapsed time itself, whether or not the
    counter rolled over in between; the sleep test and the tap test are
    then decided by that elapsed time. *)
Theorem elapsed_time_wraparound_safe cfg s t0 t1 :
  t0 <= t1 < t0 + 2 ^ 32 ->
  (last_activity_time_ s = millis_at t0 ->
   idle_elapsed (millis_at t1) s = t1 - t0 /\
   sleep_timeout_exceeded cfg (millis_at t1) s
   = (sleep_timeout_ms_ cfg <? t1 - t0)) /\
  (gesture_start_time_ s = millis_at t0 ->
   release_duration (millis_at t1) s = t1 - t0 /\
   (state_ s = STATE_START ->
    handle_release cfg (millis_at t1) s
    = if t1 - t0 <? debounce_ms_ cfg then [TouchesClear]
      else if t1 - t0 <? MAX_TAP_TIME then fire (on_tap_ cfg) OnTap
      else [])) /\
  (forall a b, sub_u32 (millis_at a) (millis_at b) = (a - b) mod 2 ^ 32).
Proof.
  intros Ht. split; [|split].
  - intros Hs. unfold sleep_timeout_exceeded, idle_elapsed.
    rewrite Hs, sub_u32_elapsed by exact Ht. split; reflexivity.
  - intros Hs. unfold handle_release, release_duration.
    rewrite Hs, sub_u32_elapsed by exact Ht. split; [reflexivity|].
    intros Hst. rewrite Hst. reflexivity.
  - intros a b. apply sub_u32_millis.
Qed.

Lemma elapsed_time_wraparound_safe_witness :
  release_duration (millis_at (2 ^ 32 + 50)) before_rollover
  = (2 ^ 32 + 50) - (2 ^ 32 - 100).
Proof.
  destruct (elapsed_time_wraparound_safe (display_cfg 30000 true)
              before_rollover (2 ^ 32 - 100) (2 ^ 32 + 50)) as [_ [H _]].
  - lia.
  - apply H. reflexivity.
Defined.

(** * The steps of [loop] *)

Lemma sleep_check_fst cfg now s :
  fst (sleep_check cfg now s)
  = set_is_sleeping (is_sleeping_ s || sleep_timeout_exceeded cfg now s) s.
Proof.
  unfold sleep_check.
  destruct (sleep_timeout_exceeded cfg now s), s as [l [] t st g sx sy];
    reflexivity.
Qed.

Lemma sleep_check_snd cfg now s :
  snd (sleep_check cfg now s)
  = if sleep_timeout_exceeded cfg now s && negb (is_sleeping_ s)
    then fire (on_sleep_ cfg) OnSleep else [].
Proof.
  unfold sleep_check.
  destruct (sleep_timeout_exceeded cfg now s), (is_sleeping_ s); reflexivity.
Qed.

(** [loop] with a bound source, step by step. *)
Lemma loop_bound cfg now src_touches s :
  source_driver_ cfg = true ->
  loop cfg now src_touches s
  = let s1 := fst (sleep_check cfg now s) in
    let e1 := snd (sleep_check cfg now s) in
    match src_touches with
    | [] => (fst (release_logic cfg now s1), e1 ++ snd (release_logic cfg now s1))
    | raw_p :: _ =>
        (fst (touch_logic cfg now raw_p s1),
         e1 ++ snd (touch_logic cfg now raw_p s1))
    end.
Proof.
  intros Hsrc. unfold loop. rewrite Hsrc. cbn.
  destruct (sleep_check cfg now s) as [s1 e1]. cbn.
  destruct src_touches as [|raw_p more].
  - destruct (release_logic cfg now s1); reflexivity.
  - destruct (touch_logic cfg now raw_p s1); reflexivity.
Qed.

Lemma loop_unbound cfg now src_touches s :
  source_driver_ cfg = false -> loop cfg now src_touches s = (s, []).
Proof. intros Hsrc. unfold loop. rewrite Hsrc. reflexivity. Qed.

Lemma run_app cfg l1 l2 s :
  run cfg (l1 ++ l2) s
  = (fst (run cfg l2 (fst (run cfg l1 s))),
     snd (run cfg l1 s) ++ snd (run cfg l2 (fst (run cfg l1 s)))).
Proof.
  revert s. induction l1 as [|[now tch] l1 IH]; intros s; cbn.
  - destruct (run cfg l2 s); reflexivity.
  - destruct (loop cfg now tch s) as [s1 e1]. rewrite IH.
    destruct (run cfg l1 s1) as [s2 e2]. cbn.
    rewrite app_assoc. reflexivity.
Qed.

Lemma run_cons cfg now src_touches rest s :
  run cfg ((now, src_touches) :: rest) s
  = (fst (run cfg rest (fst (loop cfg now src_touches s))),
     snd (loop cfg now src_touches s)
     ++ snd (run cfg rest (fst (loop cfg now src_touches s)))).
Proof.
  cbn. destruct (loop cfg now src_touches s) as [s1 e1]. cbn [fst snd].
  destruct (run cfg rest s1); reflexivity.
Qed.

Lemma run_one cfg now src_touches s :
  run cfg [(now, src_touches)] s = loop cfg now src_touches s.
Proof.
  cbn. destruct (loop cfg now src_touches s) as [s1 e1].
  rewrite app_nil_r. reflexivity.
Qed.

(** * The release classifier *)

(** C6.  A contact released while still in [STATE_START], with
    [duration = now - gesture_start_time_]: below the debounce threshold no
    trigger fires; from the threshold up to, not including, 400 ms the tap
    trigger fires, once, and nothing else; from 400 ms on no trigger fires.
    The call of [loop] that sees the release fires the taps of
    [handle_release] and no swipe, and leaves the state machine idle. *)
Theorem release_classification cfg now s :
  state_ s = STATE_START ->
  let duration := release_duration now s in
  let evs := handle_release cfg now s in
  (duration < debounce_ms_ cfg -> triggers evs = []) /\
  (debounce_ms_ cfg <= duration < MAX_TAP_TIME -> on_tap_ cfg = true ->
   triggers evs = [OnTap]) /\
  (MAX_TAP_TIME <= duration -> triggers evs = []) /\
  (source_driver_ cfg = true ->
   let r := loop cfg now [] s in
   count_fired OnTap (snd r) = count_fired OnTap evs /\
   count_swipes (snd r) = 0%nat /\
   state_ (fst r) = STATE_IDLE).
Proof.
  intros Hst duration evs. subst duration evs.
  unfold handle_release. rewrite Hst.
  repeat apply conj.
  - intros Hd. destruct (Z.ltb_spec (release_duration now s) (debounce_ms_ cfg));
      [reflexivity | lia].
  - intros Hd Htap.
    destruct (Z.ltb_spec (release_duration now s) (debounce_ms_ cfg)); [lia|].
    destruct (Z.ltb_spec (release_duration now s) MAX_TAP_TIME); [|lia].
    rewrite Htap. reflexivity.
  - intros Hd.
    destruct (Z.ltb_spec (release_duration now s) (debounce_ms_ cfg));
      [reflexivity|].
    destruct (Z.ltb_spec (release_duration now s) MAX_TAP_TIME); [lia|].
    reflexivity.
  - intros Hsrc. rewrite (loop_bound _ _ _ _ Hsrc). cbn zeta.
    rewrite sleep_check_fst, sleep_check_snd.
    unfold release_logic, handle_release, release_duration, count_swipes.
    cbn. rewrite Hst. cbn.
    unfold fire, count_fired. split_tests; repeat split; reflexivity.
Qed.

Lemma release_classification_witness :
  triggers (handle_release (display_cfg 30000 true) 150 started_at_100)
  = [OnTap].
Proof.
  destruct (release_classification (display_cfg 30000 true) 150 started_at_100)
    as [_ [H _]].
  - reflexivity.
  - apply H.
    + change (20 <= 150 < 400). lia.
    + reflexivity.
Defined.

(** * The gesture state machine *)

Lemma displacement_exact s p :
  Z.abs (x p - start_x_ s) < 2 ^ 31 ->
  wrap_s32 (x p - start_x_ s) = x p - start_x_ s /\
  abs_int (x p - start_x_ s) = Z.abs (x p - start_x_ s).
Proof.
  intros Hd. split.
  - apply wrap_s32_small. lia.
  - apply abs_int_small. lia.
Qed.

(** [case STATE_START] on a displacement that an [int] holds. *)
Lemma process_gestures_pending cfg now p s :
  state_ s = STATE_START ->
  Z.abs (x p - start_x_ s) < 2 ^ 31 ->
  process_gestures cfg now p s
  = if SWIPE_THRESHOLD <? Z.abs (x p - start_x_ s) then
      (set_state STATE_DRAGGING s,
       if 0 <? x p - start_x_ s then fire (on_swipe_right_ cfg) OnSwipeRight
       else fire (on_swipe_left_ cfg) OnSwipeLeft)
    else (s, []).
Proof.
  intros Hst Hd. unfold process_gestures. rewrite Hst.
  destruct (displacement_exact s p Hd) as [Hw Ha].
  rewrite Hw, Ha. reflexivity.
Qed.

(** What a call of [loop] with a touch does to the gesture triggers. *)
Lemma touch_tick_gestures cfg now raw_p more s :
  count_fired OnTap (snd (loop cfg now (raw_p :: more) s)) = 0%nat /\
  (count_swipes (snd (loop cfg now (raw_p :: more) s)) <= 1)%nat /\
  (count_swipes (snd (loop cfg now (raw_p :: more) s)) = 1%nat ->
   state_ (fst (loop cfg now (raw_p :: more) s)) = STATE_DRAGGING) /\
  (state_ s = STATE_DRAGGING ->
   state_ (fst (loop cfg now (raw_p :: more) s)) = STATE_DRAGGING /\
   count_swipes (snd (loop cfg now (raw_p :: more) s)) = 0%nat).
Proof.
  unfold loop, sleep_check, touch_logic, process_gestures, fire,
    count_swipes, count_fired.
  split_tests;
    repeat split; intros; try discriminate; try reflexivity; try lia;
    congruence.
Qed.

(** The same over the ticks of a contact that is down. *)
Lemma down_ticks_gestures cfg ticks :
  forall s,
    forallb has_sample ticks = true ->
    count_fired OnTap (snd (run cfg ticks s)) = 0%nat /\
    (count_swipes (snd (run cfg ticks s)) <= 1)%nat /\
    (count_swipes (snd (run cfg ticks s)) = 1%nat ->
     state_ (fst (run cfg ticks s)) = STATE_DRAGGING) /\
    (state_ s = STATE_DRAGGING ->
     state_ (fst (run cfg ticks s)) = STATE_DRAGGING /\
     count_swipes (snd (run cfg ticks s)) = 0%nat).
Proof.
  induction ticks as [|[now tch] ticks IH]; intros s Hdown.
  - cbn. repeat split; auto; lia.
  - cbn [forallb] in Hdown. apply andb_prop in Hdown as [Hhd Hdown].
    destruct tch as [|raw_p more]; [discriminate Hhd|].
    rewrite run_cons. cbn [fst snd].
    rewrite count_fired_app, count_swipes_app.
    destruct (touch_tick_gestures cfg now raw_p more s)
      as (Htap & Hle & Hone & Hdrag).
    destruct (IH (fst (loop cfg now (raw_p :: more) s)) Hdown)
      as (Htap' & Hle' & Hone' & Hdrag').
    repeat split.
    + lia.
    + destruct (Nat.eq_dec
                  (count_swipes (snd (loop cfg now (raw_p :: more) s))) 1)
        as [E|E].
      * destruct (Hdrag' (Hone E)) as [_ Hz]. lia.
      * lia.
    + intros Hsum.
      destruct (Nat.eq_dec
                  (count_swipes (snd (loop cfg now (raw_p :: more) s))) 1)
        as [E|E].
      * apply Hdrag'. apply Hone. exact E.
      * apply Hone'. lia.
    + apply Hdrag'. apply Hdrag. assumption.
    + destruct (Hdrag H) as [Hd1 Hz1]. destruct (Hdrag' Hd1) as [_ Hz2]. lia.
Qed.

(** What the call of [loop] that sees the release does to them. *)
Lemma release_tick_gestures cfg now s :
  count_swipes (snd (loop cfg now [] s)) = 0%nat /\
  (state_ s = STATE_DRAGGING ->
   count_fired OnTap (snd (loop cfg now [] s)) = 0%nat).
Proof.
  unfold loop, sleep_check, release_logic, handle_release, fire,
    count_swipes, count_fired.
  split_tests;
    repeat split; intros; try discriminate; try reflexivity; congruence.
Qed.

(** C7.  A contact leaves [STATE_START] for [STATE_DRAGGING] exactly when
    the horizontal displacement [|x - start_x_|] exceeds 30; the y of the
    sample plays no part.  ([start_x_] is the x of the contact's first
    sample, which starts the gesture and fires nothing.)  On that step exactly one trigger fires:
    swipe-right for a positive displacement, swipe-left for a negative one.
    In [STATE_DRAGGING] neither a further sample nor the release fires
    anything.  Over the ticks of a whole contact and its release at most one
    swipe fires in all, so never a left and a right one, and when a swipe
    fired no tap fires. *)
Theorem swipe_fires_once cfg :
  on_swipe_left_ cfg = true -> on_swipe_right_ cfg = true ->
  (forall now p s,
      state_ s = STATE_START ->
      Z.abs (x p - start_x_ s) < 2 ^ 31 ->
      let dx := x p - start_x_ s in
      let r := process_gestures cfg now p s in
      (state_ (fst r) = STATE_DRAGGING <-> SWIPE_THRESHOLD < Z.abs dx) /\
      (SWIPE_THRESHOLD < dx ->
       r = (set_state STATE_DRAGGING s, [Fired OnSwipeRight])) /\
      (dx < - SWIPE_THRESHOLD ->
       r = (set_state STATE_DRAGGING s, [Fired OnSwipeLeft])) /\
      (Z.abs dx <= SWIPE_THRESHOLD -> r = (s, [])) /\
      (forall y',
          process_gestures cfg now
            {| id := id p; x := x p; y := y'; pressure := pressure p |} s
          = r)) /\
  (forall now p s,
      state_ s = STATE_IDLE ->
      process_gestures cfg now p s = (start_gesture now p s, []) /\
      (- 2 ^ 15 <= x p < 2 ^ 15 -> start_x_ (start_gesture now p s) = x p)) /\
  (forall now p s,
      state_ s = STATE_DRAGGING -> process_gestures cfg now p s = (s, [])) /\
  (forall now s,
      state_ s = STATE_DRAGGING -> handle_release cfg now s = []) /\
  (forall s ticks t_rel,
      forallb has_sample ticks = true ->
      let evs := snd (run cfg (ticks ++ [(t_rel, [])]) s) in
      (count_swipes evs <= 1)%nat /\
      (count_swipes evs = 1%nat -> count_fired OnTap evs = 0%nat)).
Proof.
  intros Hleft Hright. repeat apply conj.
  - intros now p s Hst Hd dx r. subst dx r.
    rewrite (process_gestures_pending cfg now p s Hst Hd).
    rewrite Hleft, Hright. unfold SWIPE_THRESHOLD, fire.
    refine (conj _ (conj _ (conj _ (conj _ _)))).
    + destruct (Z.ltb_spec 30 (Z.abs (x p - start_x_ s))); cbn.
      * tauto.
      * rewrite Hst. split; [intros E; discriminate E | intros; lia].
    + intros Hdx.
      destruct (Z.ltb_spec 30 (Z.abs (x p - start_x_ s))); [|lia].
      destruct (Z.ltb_spec 0 (x p - start_x_ s)); [reflexivity | lia].
    + intros Hdx.
      destruct (Z.ltb_spec 30 (Z.abs (x p - start_x_ s))); [|lia].
      destruct (Z.ltb_spec 0 (x p - start_x_ s)); [lia | reflexivity].
    + intros Hdx.
      destruct (Z.ltb_spec 30 (Z.abs (x p - start_x_ s))); [lia | reflexivity].
    + intros y'.
      rewrite (process_gestures_pending cfg now
                 {| id := id p; x := x p; y := y'; pressure := pressure p |}
                 s Hst Hd).
      cbn [x]. rewrite Hleft, Hright. reflexivity.
  - intros now p s Hst. unfold process_gestures. rewrite Hst.
    split; [reflexivity|].
    intros Hx. cbn [start_x_ start_gesture]. unfold wrap_s16.
    rewrite Z.mod_small; lia.
  - intros now p s Hst. unfold process_gestures. rewrite Hst. reflexivity.
  - intros now s Hst. unfold handle_release. rewrite Hst. reflexivity.
  - intros s ticks t_rel Hdown evs. subst evs.
    rewrite run_app, run_one. cbn [fst snd].
    rewrite count_fired_app, count_swipes_app.
    destruct (down_ticks_gestures cfg ticks s Hdown) as (Htap & Hle & Hone & _).
    destruct (release_tick_gestures cfg t_rel (fst (run cfg ticks s)))
      as [Hz Hrel].
    split; [lia|].
    intros Hsum. rewrite Htap, Hrel; [reflexivity|].
    apply Hone. lia.
Qed.

Lemma swipe_fires_once_witness :
  process_gestures (display_cfg 30000 true) 10 (point 140 100) started_at_100
  = (set_state STATE_DRAGGING started_at_100, [Fired OnSwipeRight]).
Proof.
  destruct (swipe_fires_once (display_cfg 30000 true) eq_refl eq_refl)
    as [H _].
  destruct (H 10 (point 140 100) started_at_100 eq_refl) as [_ [Hr _]].
  - change (Z.abs 40 < 2 ^ 31). lia.
  - apply Hr. change (30 < 40). lia.
Defined.

(** * Sleep and wake *)

(** C3, as the code has it.  In one call of [loop] the sleep trigger fires
    at most once and the wake trigger at most once.  Both fire in the same
    call exactly when the source is bound, both triggers are registered, the
    component was awake when the call began, the idle timeout is exceeded
    and the source has a touch: the sleep check of step 1 puts the component
    to sleep and the wake logic of step 5 wakes it for the same sample.
    Then sleep fires first, wake right after it, and the call ends awake. *)
Theorem sleep_and_wake_same_tick cfg now src_touches s :
  let r := loop cfg now src_touches s in
  (count_fired OnSleep (snd r) <= 1)%nat /\
  (count_fired OnWake (snd r) <= 1)%nat /\
  (count_fired OnSleep (snd r) = 1%nat /\ count_fired OnWake (snd r) = 1%nat
   <->
   source_driver_ cfg = true /\ on_sleep_ cfg = true /\ on_wake_ cfg = true /\
   is_sleeping_ s = false /\ sleep_timeout_exceeded cfg now s = true /\
   src_touches <> []) /\
  (count_fired OnSleep (snd r) = 1%nat -> count_fired OnWake (snd r) = 1%nat ->
   is_sleeping_ (fst r) = false /\
   exists rest, snd r = Fired OnSleep :: Fired OnWake :: rest).
Proof.
  destruct src_touches as [|raw_p more];
    unfold loop, sleep_check, release_logic, touch_logic, process_gestures,
      handle_release, fire, count_fired;
    split_tests;
    (split; [lia|]); (split; [lia|]);
    (split;
     [ split;
       [ intros [? ?]; first [discriminate | repeat split; congruence]
       | intros (? & ? & ? & ? & ? & ?);
         first [congruence | split; reflexivity] ]
     | intros ? ?;
       first [discriminate | split; [reflexivity | eexists; reflexivity]] ]).
Qed.

Lemma sleep_and_wake_same_tick_witness :
  count_fired OnSleep
    (snd (loop (display_cfg 1000 true) 1001 [point 100 100] (setup 0 initial)))
  = 1%nat /\
  count_fired OnWake
    (snd (loop (display_cfg 1000 true) 1001 [point 100 100] (setup 0 initial)))
  = 1%nat.
Proof.
  destruct (sleep_and_wake_same_tick (display_cfg 1000 true) 1001
              [point 100 100] (setup 0 initial)) as (_ & _ & [_ H] & _).
  apply H. repeat split; try reflexivity. discriminate.
Defined.

(** C3, as stated, fails: with a 1000 ms timeout, a touch that arrives
    1001 ms after the last activity makes the same call of [loop] fire the
    sleep trigger and then the wake trigger. *)
Lemma sleep_and_wake_fire_together :
  snd (loop (display_cfg 1000 true) 1001 [point 100 100] (setup 0 initial))
  = [Fired OnSleep; Fired OnWake] /\
  ~ sleep_wake_exclusive (display_cfg 1000 true) 1001 [point 100 100]
      (setup 0 initial).
Proof.
  split; [reflexivity|].
  unfold sleep_wake_exclusive. cbn. lia.
Qed.

(** * The gesture state across ticks *)

(** C4, as the code has it.  After a call of [loop] on a component with a
    bound source, the gesture state is [STATE_IDLE] exactly when the source
    had no touch, or the touch was swallowed by the wake-suppression trap
    while the state was [STATE_IDLE] before the call.  A touch that is
    swallowed leaves the gesture state as it was; a touch that reaches the
    gesture engine leaves it different from [STATE_IDLE]. *)
Theorem idle_after_tick cfg now src_touches s :
  source_driver_ cfg = true ->
  let s' := fst (loop cfg now src_touches s) in
  (src_touches = [] -> state_ s' = STATE_IDLE) /\
  (src_touches <> [] -> ignore_next_release_ s' = true ->
   state_ s' = state_ s) /\
  (src_touches <> [] -> ignore_next_release_ s' = false ->
   state_ s' <> STATE_IDLE) /\
  (state_ s' = STATE_IDLE <->
   src_touches = [] \/
   (ignore_next_release_ s' = true /\ state_ s = STATE_IDLE)).
Proof.
  intros Hsrc.
  destruct src_touches as [|raw_p more];
    unfold loop, sleep_check, release_logic, touch_logic, process_gestures;
    rewrite Hsrc;
    split_tests;
    (split; [intros; first [reflexivity | congruence]|]);
    (split; [intros; first [reflexivity | congruence]|]);
    (split; [intros; first [discriminate | congruence]|]);
    (split;
     [ intros ?; first [left; reflexivity | right; split; congruence
                       | discriminate | congruence]
     | intros [?|[? ?]]; first [reflexivity | congruence] ]).
Qed.

Lemma idle_after_tick_witness :
  state_ (fst (loop (display_cfg 1000 true) 150 [] started_at_100))
  = STATE_IDLE.
Proof.
  destruct (idle_after_tick (display_cfg 1000 true) 150 [] started_at_100)
    as [H _].
  - reflexivity.
  - apply H. reflexivity.
Defined.

(** C4, as stated, fails: a component that fell asleep and is touched keeps
    [STATE_IDLE] while the contact is down, because the suppressed touch
    never reaches the gesture engine. *)
Lemma idle_while_wake_click_is_down :
  state_ (fst (boot (display_cfg 1000 true) 0
                 [(1001, []); (2000, [point 100 100])])) = STATE_IDLE /\
  ~ idle_iff_no_contact (display_cfg 1000 true) 2000 [point 100 100]
      (fst (boot (display_cfg 1000 true) 0 [(1001, [])])).
Proof.
  split; [reflexivity|].
  unfold idle_iff_no_contact. intros [H _].
  specialize (H eq_refl). discriminate H.
Qed.

(** * The wake-suppression trap *)

(** Step 3 of [loop] does nothing when the state machine is idle: in
    particular it leaves the trap flag as it is. *)
Lemma release_in_idle_keeps_trap cfg now s :
  state_ s = STATE_IDLE ->
  ignore_next_release_ (fst (loop cfg now [] s)) = ignore_next_release_ s.
Proof.
  intros Hst. unfold loop, sleep_check, release_logic.
  split_tests; first [reflexivity | congruence].
Qed.

(** C1 on the code.  Spec scenario: 1000 ms timeout, suppression on.  The
    component idles past the timeout, is woken by a click at t = 2000 and
    the click is released at t = 2100.  The release leaves the trap armed
    (the state machine never left [STATE_IDLE], so step 3 skips its body),
    and the next, independent 200 ms tap at (50,50) is swallowed: the whole
    run fires sleep and wake and nothing else.  The same tap on a component
    that was not woken by a click is forwarded and fires the tap trigger. *)
Theorem trap_survives_release :
  ~ trap_cleared_on_release (display_cfg 1000 true) 0
      [(1001, []); (2000, [point 100 100])] 2100 /\
  ignore_next_release_
    (fst (boot (display_cfg 1000 true) 0 wake_click_ticks)) = true /\
  snd (boot (display_cfg 1000 true) 0 (wake_click_ticks ++ tap_ticks))
  = [Fired OnSleep; Fired OnWake] /\
  snd (boot (display_cfg 1000 true) 2900 tap_ticks)
  = [AddRawTouch (point 50 50); Fired OnTap; TouchesClear].
Proof.
  split; [|repeat split; reflexivity].
  unfold trap_cleared_on_release. intros H.
  specialize (H eq_refl). discriminate H.
Qed.

Lemma swallowed_app e1 e2 :
  swallowed e1 -> swallowed e2 -> swallowed (e1 ++ e2).
Proof.
  unfold swallowed. intros (F1 & T1 & L1 & R1) (F2 & T2 & L2 & R2).
  rewrite forwarded_app, !count_fired_app, F1, F2, T1, T2, L1, L2, R1, R2.
  repeat split; reflexivity.
Qed.

(** A call of [loop] on an idle state machine with the trap armed: the
    touch, if any, is swallowed, and the trap stays armed. *)
Lemma trapped_tick cfg now src_touches s :
  state_ s = STATE_IDLE -> ignore_next_release_ s = true ->
  state_ (fst (loop cfg now src_touches s)) = STATE_IDLE /\
  ignore_next_release_ (fst (loop cfg now src_touches s)) = true /\
  gesture_of (fst (loop cfg now src_touches s)) = gesture_of s /\
  swallowed (snd (loop cfg now src_touches s)).
Proof.
  intros Hst Htrap. destruct s as [l sl tr st g sx sy]. cbn in Hst, Htrap.
  subst st tr.
  destruct src_touches as [|raw_p more];
    unfold loop, sleep_check, release_logic, touch_logic, fire, swallowed,
      gesture_of, count_fired, forwarded;
    split_tests; repeat split; reflexivity.
Qed.

Lemma trapped_run cfg ticks :
  forall s,
    state_ s = STATE_IDLE -> ignore_next_release_ s = true ->
    state_ (fst (run cfg ticks s)) = STATE_IDLE /\
    ignore_next_release_ (fst (run cfg ticks s)) = true /\
    gesture_of (fst (run cfg ticks s)) = gesture_of s /\
    swallowed (snd (run cfg ticks s)).
Proof.
  induction ticks as [|[now tch] ticks IH]; intros s Hst Htrap.
  - cbn. repeat split; assumption || reflexivity.
  - rewrite run_cons. cbn [fst snd].
    destruct (trapped_tick cfg now tch s Hst Htrap)
      as (Hst1 & Htrap1 & Hg1 & Hsw1).
    destruct (IH _ Hst1 Htrap1) as (Hst2 & Htrap2 & Hg2 & Hsw2).
    refine (conj Hst2 (conj Htrap2 (conj _ _))).
    + congruence.
    + apply swallowed_app; assumption.
Qed.

(** The call of [loop] that wakes an idle state machine, with suppression
    configured. *)
Lemma wake_tick cfg now raw_p more s :
  source_driver_ cfg = true ->
  suppress_wake_click_ cfg = true ->
  state_ s = STATE_IDLE ->
  is_sleeping_ s = true \/ sleep_timeout_exceeded cfg now s = true ->
  state_ (fst (loop cfg now (raw_p :: more) s)) = STATE_IDLE /\
  ignore_next_release_ (fst (loop cfg now (raw_p :: more) s)) = true /\
  gesture_of (fst (loop cfg now (raw_p :: more) s)) = gesture_of s /\
  swallowed (snd (loop cfg now (raw_p :: more) s)) /\
  count_fired OnWake (snd (loop cfg now (raw_p :: more) s))
  = (if on_wake_ cfg then 1 else 0)%nat /\
  is_sleeping_ (fst (loop cfg now (raw_p :: more) s)) = false /\
  last_activity_time_ (fst (loop cfg now (raw_p :: more) s)) = now.
Proof.
  intros Hsrc Hsup Hst Hor.
  assert (Hs : is_sleeping_ s || sleep_timeout_exceeded cfg now s = true).
  { destruct Hor as [H|H]; rewrite H; [reflexivity | apply orb_true_r]. }
  rewrite (loop_bound _ _ _ _ Hsrc). cbn zeta.
  rewrite sleep_check_fst, sleep_check_snd, Hs.
  unfold touch_logic. cbn [is_sleeping_ set_is_sleeping]. rewrite Hsup.
  cbn [andb fst snd].
  unfold gesture_of, swallowed, fire, count_fired, forwarded. cbn.
  destruct (sleep_timeout_exceeded cfg now s && negb (is_sleeping_ s)),
    (on_sleep_ cfg), (on_wake_ cfg); cbn; repeat split; assumption || reflexivity.
Qed.

(** With the trap armed and the component awake, a call of [loop] within
    the sleep timeout of the last activity fires nothing. *)
Lemma quiet_touch_tick cfg now raw_p more s :
  ignore_next_release_ s = true ->
  is_sleeping_ s = false ->
  sub_u32 now (last_activity_time_ s) <= sleep_timeout_ms_ cfg ->
  snd (loop cfg now (raw_p :: more) s) = [] /\
  (source_driver_ cfg = true ->
   last_activity_time_ (fst (loop cfg now (raw_p :: more) s)) = now) /\
  is_sleeping_ (fst (loop cfg now (raw_p :: more) s)) = false.
Proof.
  intros Htrap Hsl Hgap.
  assert (Hq : sleep_timeout_exceeded cfg now s = false).
  { unfold sleep_timeout_exceeded, idle_elapsed. apply Z.ltb_ge. exact Hgap. }
  unfold loop, sleep_check, touch_logic. rewrite Hq, Hsl.
  destruct (source_driver_ cfg); cbn; [|repeat split; [discriminate|assumption]].
  rewrite Htrap. cbn. repeat split. exact Hsl.
Qed.

Lemma quiet_release_tick cfg now s :
  state_ s = STATE_IDLE ->
  is_sleeping_ s = false ->
  sub_u32 now (last_activity_time_ s) <= sleep_timeout_ms_ cfg ->
  snd (loop cfg now [] s) = [].
Proof.
  intros Hst Hsl Hgap.
  assert (Hq : sleep_timeout_exceeded cfg now s = false).
  { unfold sleep_timeout_exceeded, idle_elapsed. apply Z.ltb_ge. exact Hgap. }
  unfold loop, sleep_check, release_logic. rewrite Hq.
  destruct (source_driver_ cfg); cbn; [|reflexivity].
  rewrite Hst. reflexivity.
Qed.

Lemma quiet_contact cfg rest :
  forall s t_rel,
    source_driver_ cfg = true ->
    forallb has_sample rest = true ->
    state_ s = STATE_IDLE ->
    ignore_next_release_ s = true ->
    is_sleeping_ s = false ->
    within_timeout cfg (last_activity_time_ s) (map fst rest ++ [t_rel]) = true ->
    snd (run cfg (rest ++ [(t_rel, [])]) s) = [].
Proof.
  induction rest as [|[now tch] rest IH];
    intros s t_rel Hsrc Hdown Hst Htrap Hsl Hgaps.
  - cbn [app map] in *. rewrite run_one.
    cbn [within_timeout] in Hgaps. apply andb_prop in Hgaps as [Hgap _].
    apply Z.leb_le in Hgap. now apply quiet_release_tick.
  - cbn [forallb] in Hdown. apply andb_prop in Hdown as [Hhd Hdown].
    destruct tch as [|raw_p more]; [discriminate Hhd|].
    cbn [app map fst within_timeout] in Hgaps.
    apply andb_prop in Hgaps as [Hgap Hgaps]. apply Z.leb_le in Hgap.
    cbn [app]. rewrite run_cons. cbn [fst snd].
    destruct (quiet_touch_tick cfg now raw_p more s Htrap Hsl Hgap)
      as (Hev & Hlast & Hsl1).
    destruct (trapped_tick cfg now (raw_p :: more) s Hst Htrap)
      as (Hst1 & Htrap1 & _).
    rewrite Hev. cbn [app].
    apply IH; try assumption.
    rewrite (Hlast Hsrc). exact Hgaps.
Qed.

(** C2, as the code has it.  A contact whose first sample finds the state
    machine idle and the component asleep (or past its idle timeout), with
    suppression configured: the call of [loop] that sees that first sample
    fires the wake trigger exactly once; over all the ticks of the contact,
    its release included, no point is handed to the output sink and no tap
    or swipe fires, whatever the samples and their times; after every one
    of these ticks the gesture fields are what they were before the contact,
    so the gesture engine never ran.  If no two consecutive ticks of the
    contact are further apart than the sleep timeout, the wake trigger fires
    exactly once in the whole contact. *)
Theorem wake_click_swallowed cfg s now raw_p more rest t_rel :
  source_driver_ cfg = true ->
  suppress_wake_click_ cfg = true ->
  on_wake_ cfg = true ->
  state_ s = STATE_IDLE ->
  is_sleeping_ s = true \/ sleep_timeout_exceeded cfg now s = true ->
  forallb has_sample rest = true ->
  let contact := (now, raw_p :: more) :: rest ++ [(t_rel, [])] in
  count_fired OnWake (snd (loop cfg now (raw_p :: more) s)) = 1%nat /\
  swallowed (snd (run cfg contact s)) /\
  (forall k, gesture_of (fst (run cfg (firstn k contact) s)) = gesture_of s) /\
  (within_timeout cfg now (map fst rest ++ [t_rel]) = true ->
   count_fired OnWake (snd (run cfg contact s)) = 1%nat).
Proof.
  intros Hsrc Hsup Hwake Hst Hor Hdown contact. subst contact.
  destruct (wake_tick cfg now raw_p more s Hsrc Hsup Hst Hor)
    as (Hst1 & Htrap1 & Hg1 & Hsw1 & Hcount & Hsl1 & Hlast1).
  rewrite Hwake in Hcount.
  refine (conj Hcount (conj _ (conj _ _))).
  - rewrite run_cons. cbn [fst snd].
    apply swallowed_app; [exact Hsw1|].
    now apply trapped_run.
  - intros [|k]; [reflexivity|].
    rewrite firstn_cons, run_cons. cbn [fst snd].
    destruct (trapped_run cfg (firstn k (rest ++ [(t_rel, [])])) _ Hst1 Htrap1)
      as (_ & _ & Hg & _).
    exact (eq_trans Hg Hg1).
  - intros Hgaps. rewrite run_cons. cbn [fst snd].
    rewrite count_fired_app, Hcount.
    rewrite quiet_contact; try assumption; [reflexivity|].
    rewrite Hlast1. exact Hgaps.
Qed.

Lemma wake_click_swallowed_witness :
  swallowed
    (snd (run (display_cfg 1000 true)
            ((2000, [point 100 100])
               :: [(2100, [point 120 100]); (2600, [point 200 100])]
               ++ [(2700, [])])
            asleep)).
Proof.
  destruct (wake_click_swallowed (display_cfg 1000 true) asleep 2000
              (point 100 100) []
              [(2100, [point 120 100]); (2600, [point 200 100])] 2700)
    as (_ & H & _); try reflexivity.
  - left. reflexivity.
  - exact H.
Defined.

(** C2, as stated, fails for a contact that is already down when the
    component falls asleep.  With a 100 ms timeout the contact starts awake
    at t = 10 and is forwarded; the next call of [loop] comes at t = 200, so
    the component falls asleep and the same sample wakes it, arming the
    trap; the release at t = 300 finds [STATE_START] and fires a tap.
    Likewise a contact that wakes the component at t = 300 and is polled
    next at t = 500 fires the wake trigger twice. *)
Lemma wake_click_of_running_contact_taps :
  snd (run (display_cfg 100 true) slow_ticks (setup 0 initial))
  = [AddRawTouch (point 50 50); Fired OnSleep; Fired OnWake; Fired OnTap;
     TouchesClear] /\
  ~ wake_click_suppressed (display_cfg 100 true) (setup 0 initial) slow_ticks /\
  snd (run (display_cfg 100 true) resleep_ticks
         (fst (boot (display_cfg 100 true) 0 [(200, [])])))
  = [Fired OnWake; Fired OnSleep; Fired OnWake] /\
  ~ wake_click_suppressed (display_cfg 100 true)
      (fst (boot (display_cfg 100 true) 0 [(200, [])])) resleep_ticks.
Proof.
  split; [reflexivity|]. split; [|split; [reflexivity|]].
  - unfold wake_click_suppressed. intros H.
    destruct H as [_ (Hf & _)].
    + reflexivity.
    + cbn. lia.
    + discriminate Hf.
  - unfold wake_click_suppressed. intros H.
    destruct H as [Hc _].
    + reflexivity.
    + cbn. lia.
    + discriminate Hc.
Qed.

(** * More on the calibration transform *)

Lemma clamp_nonneg z : 0 <= (if z <? 0 then 0 else z).
Proof. destruct (Z.ltb_spec z 0); lia. Qed.

Lemma clamp_id z : 0 <= z -> (if z <? 0 then 0 else z) = z.
Proof. intros Hz. destruct (Z.ltb_spec z 0); lia. Qed.

(** X1.  Calibration saturates at zero: whatever the point and the
    configuration, also for negative or out-of-range input, neither
    returned coordinate is negative. *)
Theorem apply_calibration_nonneg cfg p :
  0 <= x (apply_calibration cfg p) /\ 0 <= y (apply_calibration cfg p).
Proof.
  unfold apply_calibration. cbn [x y]. split; apply clamp_nonneg.
Qed.

(** X2.  Calibration maps the display rectangle into the rectangle of the
    calibrated orientation: a point with [0 <= x <= width] and
    [0 <= y <= height] comes out with x within the height and y within the
    width when [swap_xy] is set, and within width and height otherwise,
    whatever the inversion flags. *)
Theorem apply_calibration_on_display cfg p :
  on_display cfg p ->
  display_width_ cfg < 2 ^ 31 -> display_height_ cfg < 2 ^ 31 ->
  let q := apply_calibration cfg p in
  if swap_xy_ cfg
  then 0 <= x q <= display_height_ cfg /\ 0 <= y q <= display_width_ cfg
  else 0 <= x q <= display_width_ cfg /\ 0 <= y q <= display_height_ cfg.
Proof.
  intros [Hx Hy] HW HH q. subst q. unfold apply_calibration. cbn [x y].
  destruct (swap_xy_ cfg), (invert_x_ cfg), (invert_y_ cfg);
    rewrite ?wrap_s32_small by lia;
    rewrite !clamp_id by lia; lia.
Qed.

Lemma apply_calibration_on_display_witness :
  0 <= x (apply_calibration rotated_cfg (point 10 5)) <= 240 /\
  0 <= y (apply_calibration rotated_cfg (point 10 5)) <= 320.
Proof.
  apply (apply_calibration_on_display rotated_cfg (point 10 5)).
  - unfold on_display. cbn. lia.
  - cbn. lia.
  - cbn. lia.
Defined.

(** X3.  Without [swap_xy], calibration is an involution on the display
    rectangle: calibrating a calibrated point gives the point back (each
    inversion undoes itself).  With [swap_xy] and no inversion it is an
    involution on the points with non-negative coordinates. *)
Theorem apply_calibration_involutive cfg p :
  (swap_xy_ cfg = false /\ on_display cfg p /\
   display_width_ cfg < 2 ^ 31 /\ display_height_ cfg < 2 ^ 31) \/
  (swap_xy_ cfg = true /\ invert_x_ cfg = false /\ invert_y_ cfg = false /\
   0 <= x p /\ 0 <= y p) ->
  apply_calibration cfg (apply_calibration cfg p) = p.
Proof.
  destruct p as [i px py pr].
  intros [(Hs & [Hx Hy] & HW & HH) | (Hs & Hix & Hiy & Hx & Hy)];
    cbn [x y] in *; unfold apply_calibration; cbn [x y id pressure].
  - rewrite Hs.
    destruct (invert_x_ cfg), (invert_y_ cfg);
      rewrite ?(wrap_s32_small (display_width_ cfg - px)) by lia;
      rewrite ?(wrap_s32_small (display_height_ cfg - py)) by lia;
      rewrite ?(clamp_id (display_width_ cfg - px)) by lia;
      rewrite ?(clamp_id (display_height_ cfg - py)) by lia;
      rewrite ?(clamp_id px) by lia; rewrite ?(clamp_id py) by lia;
      rewrite ?wrap_s32_small by lia;
      rewrite ?clamp_id by lia;
      f_equal; lia.
  - rewrite Hs, Hix, Hiy.
    rewrite ?(clamp_id px), ?(clamp_id py) by lia.
    rewrite ?(clamp_id px), ?(clamp_id py) by lia. reflexivity.
Qed.

Lemma apply_calibration_involutive_witness :
  apply_calibration mirrored_cfg (apply_calibration mirrored_cfg (point 100 60))
  = point 100 60.
Proof.
  apply (apply_calibration_involutive mirrored_cfg (point 100 60)).
  left. unfold on_display. cbn. repeat split; try lia.
Defined.

(** * Sleep and wake over whole runs *)

Lemma idle_tick_step cfg now s :
  (count_fired OnSleep (snd (loop cfg now [] s)) <= 1)%nat /\
  (is_sleeping_ s = true ->
   count_fired OnSleep (snd (loop cfg now [] s)) = 0%nat /\
   is_sleeping_ (fst (loop cfg now [] s)) = true) /\
  (count_fired OnSleep (snd (loop cfg now [] s)) = 1%nat ->
   is_sleeping_ (fst (loop cfg now [] s)) = true) /\
  count_fired OnWake (snd (loop cfg now [] s)) = 0%nat /\
  forwarded (snd (loop cfg now [] s)) = [] /\
  last_activity_time_ (fst (loop cfg now [] s)) = last_activity_time_ s.
Proof.
  unfold loop, sleep_check, release_logic, handle_release, fire,
    count_fired, forwarded.
  split_tests;
    repeat (split || intro);
    try discriminate; try reflexivity; try assumption; lia.
Qed.

(** X4.  The sleep trigger is edge-triggered.  Over any number of calls of
    [loop] that find no touch, however long the idleness lasts, it fires at
    most once, and not at all if the component was already asleep; the
    component never wakes, nothing is forwarded, and the time of the last
    activity is left alone. *)
Theorem sleep_fires_once_while_idle cfg ticks :
  forall s,
    forallb idle_tick ticks = true ->
    (count_fired OnSleep (snd (run cfg ticks s)) <= 1)%nat /\
    (is_sleeping_ s = true ->
     count_fired OnSleep (snd (run cfg ticks s)) = 0%nat /\
     is_sleeping_ (fst (run cfg ticks s)) = true) /\
    count_fired OnWake (snd (run cfg ticks s)) = 0%nat /\
    forwarded (snd (run cfg ticks s)) = [] /\
    last_activity_time_ (fst (run cfg ticks s)) = last_activity_time_ s.
Proof.
  induction ticks as [|[now tch] ticks IH]; intros s Hidle.
  - cbn. repeat split; auto.
  - cbn [forallb] in Hidle. apply andb_prop in Hidle as [Hhd Hidle].
    destruct tch as [|raw_p more]; [|discriminate Hhd].
    rewrite run_cons. cbn [fst snd].
    rewrite !count_fired_app, forwarded_app.
    destruct (idle_tick_step cfg now s) as (Hle & Hsl & Hone & Hw & Hf & Hl).
    destruct (IH (fst (loop cfg now [] s)) Hidle)
      as (Hle' & Hsl' & Hw' & Hf' & Hl').
    rewrite Hw, Hw', Hf, Hf', Hl', Hl.
    refine (conj _ (conj _ (conj eq_refl (conj eq_refl eq_refl)))).
    + destruct (Nat.eq_dec (count_fired OnSleep (snd (loop cfg now [] s))) 1)
        as [E|E].
      * destruct (Hsl' (Hone E)) as [Hz _]. lia.
      * lia.
    + intros Hs. destruct (Hsl Hs) as [Hz Hs1].
      destruct (Hsl' Hs1) as [Hz' Hs2]. split; [lia | exact Hs2].
Qed.

Lemma sleep_fires_once_while_idle_witness :
  Nat.le
    (count_fired OnSleep
       (snd (run (display_cfg 1000 true)
               [(2001, []); (5000, []); (90000, [])] awake_idle))) 1.
Proof.
  destruct (sleep_fires_once_while_idle (display_cfg 1000 true)
              [(2001, []); (5000, []); (90000, [])] awake_idle) as [H _].
  - reflexivity.
  - exact H.
Defined.

Lemma sleep_wake_balance_tick cfg now src_touches s :
  on_sleep_ cfg = true -> on_wake_ cfg = true ->
  (count_fired OnSleep (snd (loop cfg now src_touches s))
   + Nat.b2n (is_sleeping_ s)
   = count_fired OnWake (snd (loop cfg now src_touches s))
     + Nat.b2n (is_sleeping_ (fst (loop cfg now src_touches s))))%nat.
Proof.
  intros Hsleep Hwake.
  destruct src_touches as [|raw_p more];
    unfold loop, sleep_check, release_logic, touch_logic, process_gestures,
      handle_release, fire, count_fired;
    rewrite ?Hsleep, ?Hwake;
    split_tests;
    repeat match goal with
           | H : is_sleeping_ _ = _ |- _ => rewrite H
           end;
    first [reflexivity | congruence].
Qed.

(** X5.  Sleep and wake alternate.  With both triggers registered, over any
    run of calls of [loop] the number of sleep firings and the number of
    wake firings differ by the change of the sleeping flag: counting from an
    awake component there are as many wakes as sleeps when it ends awake and
    one sleep more when it ends asleep.  So the wake trigger never fires
    without a sleep before it, and never twice for one sleep. *)
Theorem sleep_wake_alternate cfg ticks :
  on_sleep_ cfg = true -> on_wake_ cfg = true ->
  forall s,
    (count_fired OnSleep (snd (run cfg ticks s)) + Nat.b2n (is_sleeping_ s)
     = count_fired OnWake (snd (run cfg ticks s))
       + Nat.b2n (is_sleeping_ (fst (run cfg ticks s))))%nat.
Proof.
  intros Hsleep Hwake.
  induction ticks as [|[now tch] ticks IH]; intros s.
  - cbn. reflexivity.
  - rewrite run_cons. cbn [fst snd]. rewrite !count_fired_app.
    pose proof (sleep_wake_balance_tick cfg now tch s Hsleep Hwake) as H1.
    pose proof (IH (fst (loop cfg now tch s))) as H2.
    lia.
Qed.

Lemma sleep_wake_alternate_witness :
  (count_fired OnSleep
     (snd (run (display_cfg 100 true) resleep_ticks asleep))
   + Nat.b2n (is_sleeping_ asleep)
   = count_fired OnWake
       (snd (run (display_cfg 100 true) resleep_ticks asleep))
     + Nat.b2n
         (is_sleeping_
            (fst (run (display_cfg 100 true) resleep_ticks asleep))))%nat.
Proof.
  apply (sleep_wake_alternate (display_cfg 100 true) resleep_ticks);
    reflexivity.
Defined.

(** X6.  A touch always leaves the component awake with its idle timer
    restarted: after a call of [loop] that finds a touch, also one that is
    swallowed by the trap, [is_sleeping_] is false and
    [last_activity_time_] is the time of the call. *)
Theorem touch_restarts_idle_timer cfg now raw_p more s :
  source_driver_ cfg = true ->
  is_sleeping_ (fst (loop cfg now (raw_p :: more) s)) = false /\
  last_activity_time_ (fst (loop cfg now (raw_p :: more) s)) = now.
Proof.
  intros Hsrc.
  unfold loop, sleep_check, touch_logic, process_gestures.
  rewrite Hsrc.
  split_tests; split; first [reflexivity | congruence].
Qed.

Lemma touch_restarts_idle_timer_witness :
  is_sleeping_
    (fst (loop (display_cfg 1000 true) 5000 [point 10 10] asleep)) = false /\
  last_activity_time_
    (fst (loop (display_cfg 1000 true) 5000 [point 10 10] asleep)) = 5000.
Proof.
  apply (touch_restarts_idle_timer (display_cfg 1000 true) 5000 (point 10 10)
           [] asleep).
  reflexivity.
Defined.

(** * What reaches the output sink *)

(** X7.  [loop] is single-point and forwards at most one point per call:
    only the first touch of the source is read, and the call forwards
    exactly its calibration unless the trap is armed when the call ends, in
    which case it forwards nothing.  Forwarding does not depend on the
    gesture state nor on the debounce threshold. *)
Theorem forwards_first_touch cfg now raw_p more s :
  source_driver_ cfg = true ->
  loop cfg now (raw_p :: more) s = loop cfg now [raw_p] s /\
  forwarded (snd (loop cfg now (raw_p :: more) s))
  = if ignore_next_release_ (fst (loop cfg now (raw_p :: more) s))
    then [] else [apply_calibration cfg raw_p].
Proof.
  intros Hsrc. split; [reflexivity|].
  unfold loop, sleep_check, touch_logic, process_gestures, fire, forwarded.
  rewrite Hsrc. generalize (apply_calibration cfg raw_p). intros q.
  split_tests;
    repeat match goal with
           | H : ignore_next_release_ _ = _ |- _ => rewrite H
           end;
    first [reflexivity | congruence | cbn in *; congruence].
Qed.

Lemma forwards_first_touch_witness :
  forwarded
    (snd (loop rotated_cfg 1010 [point 10 5; point 99 99] awake_idle))
  = [point 235 10].
Proof.
  destruct (forwards_first_touch rotated_cfg 1010 (point 10 5) [point 99 99]
              awake_idle eq_refl) as [_ H].
  exact H.
Defined.

Lemma no_suppression_tick cfg now src_touches s :
  source_driver_ cfg = true ->
  suppress_wake_click_ cfg = false ->
  ignore_next_release_ s = false ->
  ignore_next_release_ (fst (loop cfg now src_touches s)) = false /\
  forwarded (snd (loop cfg now src_touches s))
  = map (apply_calibration cfg) (first_touches [(now, src_touches)]).
Proof.
  intros Hsrc Hsup Htrap.
  destruct src_touches as [|raw_p more];
    unfold loop, sleep_check, release_logic, touch_logic, process_gestures,
      handle_release, fire, forwarded, first_touches;
    rewrite Hsrc, ?Hsup;
    cbn [flat_map snd map app];
    try (generalize (apply_calibration cfg raw_p); intros q);
    split_tests;
    repeat match goal with
           | H : ignore_next_release_ _ = _ |- _ => rewrite H
           end;
    split; first [reflexivity | congruence | cbn in *; congruence].
Qed.

(** X8.  Without wake-click suppression nothing is ever swallowed: if
    [suppress_wake_click] is false and the trap is not armed, then over any
    run of calls of [loop] the trap stays unarmed and the points forwarded
    are exactly the calibrations of the first touch of every tick that has
    one, in order, the waking touch included. *)
Theorem no_suppression_forwards_all cfg ticks :
  source_driver_ cfg = true ->
  suppress_wake_click_ cfg = false ->
  forall s,
    ignore_next_release_ s = false ->
    ignore_next_release_ (fst (run cfg ticks s)) = false /\
    forwarded (snd (run cfg ticks s))
    = map (apply_calibration cfg) (first_touches ticks).
Proof.
  intros Hsrc Hsup.
  induction ticks as [|[now tch] ticks IH]; intros s Htrap.
  - cbn. split; [exact Htrap | reflexivity].
  - rewrite run_cons. cbn [fst snd].
    destruct (no_suppression_tick cfg now tch s Hsrc Hsup Htrap) as [Ht Hf].
    destruct (IH _ Ht) as [Ht' Hf'].
    split; [exact Ht'|].
    rewrite forwarded_app, Hf, Hf'.
    unfold first_touches. cbn [flat_map]. rewrite app_nil_r, map_app.
    reflexivity.
Qed.

Lemma no_suppression_forwards_all_witness :
  forwarded (snd (run (display_cfg 1000 false) wake_click_ticks
                    (setup 0 initial)))
  = [point 100 100].
Proof.
  destruct (no_suppression_forwards_all (display_cfg 1000 false)
              wake_click_ticks eq_refl eq_refl (setup 0 initial) eq_refl)
    as [_ H].
  exact H.
Defined.

(** X9.  Once the trap is armed while the state machine is idle it is never
    disarmed: whatever ticks follow, touches and releases alike, the flag
    stays set, the gesture fields never change, no point is forwarded and
    no tap or swipe fires.  (The only reset of the flag is in the release
    branch, under [state_ != STATE_IDLE], and no swallowed touch leaves
    [STATE_IDLE].) *)
Theorem armed_trap_is_permanent cfg ticks s :
  state_ s = STATE_IDLE ->
  ignore_next_release_ s = true ->
  ignore_next_release_ (fst (run cfg ticks s)) = true /\
  gesture_of (fst (run cfg ticks s)) = gesture_of s /\
  swallowed (snd (run cfg ticks s)).
Proof.
  intros Hst Htrap.
  destruct (trapped_run cfg ticks s Hst Htrap) as (_ & H1 & H2 & H3).
  auto.
Qed.

Lemma armed_trap_is_permanent_witness :
  ignore_next_release_
    (fst (run (display_cfg 1000 true) (tap_ticks ++ tap_ticks) trapped))
  = true.
Proof.
  destruct (armed_trap_is_permanent (display_cfg 1000 true)
              (tap_ticks ++ tap_ticks) trapped eq_refl eq_refl) as [H _].
  exact H.
Defined.

(** * The gesture state over whole runs *)

Lemma never_released_tick cfg now src_touches s :
  state_ s <> STATE_RELEASED ->
  state_ (fst (loop cfg now src_touches s)) <> STATE_RELEASED.
Proof.
  intros Hst.
  destruct src_touches as [|raw_p more];
    unfold loop, sleep_check, release_logic, touch_logic, process_gestures;
    split_tests; first [discriminate | congruence].
Qed.

(** X10.  [STATE_RELEASED] is dead: no call of [loop] ever enters it.  A
    component whose state machine is not in [STATE_RELEASED], as after
    construction, is never in it after any run; its state is one of
    [STATE_IDLE], [STATE_START] and [STATE_DRAGGING]. *)
Theorem released_state_unreachable cfg ticks :
  forall s,
    state_ s <> STATE_RELEASED ->
    state_ (fst (run cfg ticks s)) <> STATE_RELEASED.
Proof.
  induction ticks as [|[now tch] ticks IH]; intros s Hst.
  - exact Hst.
  - rewrite run_cons. cbn [fst]. apply IH.
    now apply never_released_tick.
Qed.

Lemma released_state_unreachable_witness :
  state_ (fst (boot (display_cfg 100 true) 0 (slow_ticks ++ resleep_ticks)))
  <> STATE_RELEASED.
Proof.
  apply (released_state_unreachable (display_cfg 100 true)
           (slow_ticks ++ resleep_ticks) (setup 0 initial)).
  discriminate.
Defined.

Lemma no_tap_tick cfg now src_touches s :
  MAX_TAP_TIME <= debounce_ms_ cfg ->
  count_fired OnTap (snd (loop cfg now src_touches s)) = 0%nat.
Proof.
  intros Hdeb.
  destruct src_touches as [|raw_p more].
  - unfold loop, sleep_check, release_logic, handle_release, fire,
      count_fired.
    split_tests;
      first [ reflexivity
            | exfalso;
              repeat match goal with
                     | H : (_ <? _) = true |- _ => apply Z.ltb_lt in H
                     | H : (_ <? _) = false |- _ => apply Z.ltb_ge in H
                     end;
              lia ].
  - apply touch_tick_gestures.
Qed.

(** X11.  A debounce threshold of 400 ms or more disables taps: the tap
    window [debounce_ms_ <= duration < 400] is then empty, and over any run
    of calls of [loop] the tap trigger never fires. *)
Theorem no_tap_when_debounce_covers_tap_time cfg ticks :
  MAX_TAP_TIME <= debounce_ms_ cfg ->
  forall s, count_fired OnTap (snd (run cfg ticks s)) = 0%nat.
Proof.
  intros Hdeb.
  induction ticks as [|[now tch] ticks IH]; intros s.
  - reflexivity.
  - rewrite run_cons. cbn [fst snd].
    rewrite count_fired_app, IH, (no_tap_tick cfg now tch s Hdeb).
    reflexivity.
Qed.

Lemma no_tap_when_debounce_covers_tap_time_witness :
  count_fired OnTap
    (snd (run slow_debounce_cfg tap_ticks (setup 2900 initial))) = 0%nat.
Proof.
  apply (no_tap_when_debounce_covers_tap_time slow_debounce_cfg tap_ticks).
  unfold MAX_TAP_TIME. cbn. lia.
Defined.

(** * Whole contacts on an awake component *)

Lemma not_exceeded cfg now s :
  sub_u32 now (last_activity_time_ s) <= sleep_timeout_ms_ cfg ->
  sleep_timeout_exceeded cfg now s = false.
Proof.
  intros Hgap. unfold sleep_timeout_exceeded, idle_elapsed.
  apply Z.ltb_ge. exact Hgap.
Qed.

(** A call of [loop] that finds a touch, the component being awake, within
    its timeout and with the trap unarmed: calibrate, run the gesture
    engine, forward. *)
Lemma awake_touch_tick cfg now raw_p more s :
  source_driver_ cfg = true ->
  is_sleeping_ s = false ->
  ignore_next_release_ s = false ->
  sub_u32 now (last_activity_time_ s) <= sleep_timeout_ms_ cfg ->
  loop cfg now (raw_p :: more) s
  = (fst (process_gestures cfg now (apply_calibration cfg raw_p)
            (set_last_activity_time now s)),
     snd (process_gestures cfg now (apply_calibration cfg raw_p)
            (set_last_activity_time now s))
     ++ [AddRawTouch (apply_calibration cfg raw_p)]).
Proof.
  intros Hsrc Hsl Htrap Hgap.
  unfold loop, sleep_check, touch_logic.
  rewrite Hsrc, (not_exceeded _ _ _ Hgap). cbn [negb]. rewrite Hsl.
  cbn [andb]. cbn [ignore_next_release_ set_last_activity_time].
  rewrite Htrap.
  destruct (process_gestures cfg now (apply_calibration cfg raw_p)
              (set_last_activity_time now s)) as [s3 e3].
  reflexivity.
Qed.

Lemma awake_release_tick cfg now s :
  source_driver_ cfg = true ->
  state_ s = STATE_START ->
  sub_u32 now (last_activity_time_ s) <= sleep_timeout_ms_ cfg ->
  loop cfg now [] s
  = (set_ignore_next_release false (set_state STATE_IDLE s),
     handle_release cfg now s ++ [TouchesClear]).
Proof.
  intros Hsrc Hst Hgap.
  unfold loop, sleep_check, release_logic.
  rewrite Hsrc, (not_exceeded _ _ _ Hgap). cbn [negb]. rewrite Hst.
  reflexivity.
Qed.

Lemma first_sample_starts_gesture cfg now p s :
  state_ s = STATE_IDLE ->
  process_gestures cfg now p (set_last_activity_time now s)
  = (start_gesture now p (set_last_activity_time now s), []).
Proof.
  intros Hst. unfold process_gestures.
  cbn [state_ set_last_activity_time]. rewrite Hst. reflexivity.
Qed.

(** The ticks of a contact after its first, and its release, when no sample
    leaves the swipe threshold. *)
Lemma pending_contact cfg rest :
  forall s t_rel,
    source_driver_ cfg = true ->
    state_ s = STATE_START ->
    is_sleeping_ s = false ->
    ignore_next_release_ s = false ->
    forallb has_sample rest = true ->
    forallb (stays_put cfg (start_x_ s)) rest = true ->
    within_timeout cfg (last_activity_time_ s) (map fst rest ++ [t_rel]) = true ->
    snd (run cfg (rest ++ [(t_rel, [])]) s)
    = map (fun p => AddRawTouch (apply_calibration cfg p)) (first_touches rest)
      ++ handle_release cfg t_rel s ++ [TouchesClear] /\
    state_ (fst (run cfg (rest ++ [(t_rel, [])]) s)) = STATE_IDLE.
Proof.
  induction rest as [|[now tch] rest IH];
    intros s t_rel Hsrc Hst Hsl Htrap Hdown Hput Hgaps.
  - cbn [app map] in *. rewrite run_one.
    cbn [within_timeout] in Hgaps. apply andb_prop in Hgaps as [Hgap _].
    apply Z.leb_le in Hgap.
    rewrite (awake_release_tick cfg t_rel s Hsrc Hst Hgap).
    split; reflexivity.
  - cbn [forallb] in Hdown, Hput.
    apply andb_prop in Hdown as [Hhd Hdown].
    apply andb_prop in Hput as [Hp Hput].
    destruct tch as [|raw_p more]; [discriminate Hhd|].
    cbn [app map fst within_timeout] in Hgaps.
    apply andb_prop in Hgaps as [Hgap Hgaps]. apply Z.leb_le in Hgap.
    cbn [app]. rewrite run_cons.
    rewrite (awake_touch_tick cfg now raw_p more s Hsrc Hsl Htrap Hgap).
    unfold stays_put in Hp. cbn [snd] in Hp. apply negb_true_iff in Hp.
    unfold process_gestures.
    cbn [state_ start_x_ set_last_activity_time]. rewrite Hst, Hp.
    cbn [fst snd app].
    destruct (IH (set_last_activity_time now s) t_rel Hsrc Hst Hsl Htrap
                Hdown Hput Hgaps) as [Hev Hfin].
    split; [|exact Hfin].
    rewrite Hev. reflexivity.
Qed.

(** X12.  A whole contact on an awake component, end to end.  The contact
    finds the state machine idle and the trap unarmed, no two of its ticks
    are further apart than the sleep timeout, and none of its samples,
    once calibrated, leaves the swipe threshold around the first one.  Then
    every sample is forwarded, calibrated, on the tick it arrives, and the
    release, [duration = t_rel - t_first] later, fires nothing but clears
    the output when the duration is below the debounce threshold, fires
    exactly the tap trigger when it is below 400 ms, and fires nothing
    otherwise; no other trigger fires and the state machine is idle
    again. *)
Theorem tap_contact cfg s now raw_p more rest t_rel :
  source_driver_ cfg = true ->
  on_tap_ cfg = true ->
  state_ s = STATE_IDLE ->
  is_sleeping_ s = false ->
  ignore_next_release_ s = false ->
  forallb has_sample rest = true ->
  forallb (stays_put cfg (wrap_s16 (x (apply_calibration cfg raw_p)))) rest
  = true ->
  within_timeout cfg (last_activity_time_ s) (now :: map fst rest ++ [t_rel])
  = true ->
  let contact := (now, raw_p :: more) :: rest ++ [(t_rel, [])] in
  let duration := sub_u32 t_rel now in
  snd (run cfg contact s)
  = map (fun p => AddRawTouch (apply_calibration cfg p))
      (raw_p :: first_touches rest)
    ++ (if duration <? debounce_ms_ cfg then [TouchesClear]
        else if duration <? MAX_TAP_TIME then [Fired OnTap] else [])
    ++ [TouchesClear] /\
  state_ (fst (run cfg contact s)) = STATE_IDLE.
Proof.
  intros Hsrc Htap Hst Hsl Htrap Hdown Hput Hgaps contact duration.
  subst contact duration.
  cbn [within_timeout] in Hgaps.
  apply andb_prop in Hgaps as [Hgap Hgaps]. apply Z.leb_le in Hgap.
  rewrite run_cons.
  rewrite (awake_touch_tick cfg now raw_p more s Hsrc Hsl Htrap Hgap).
  rewrite (first_sample_starts_gesture cfg now _ _ Hst). cbn [fst snd app].
  destruct (pending_contact cfg rest
              (start_gesture now (apply_calibration cfg raw_p)
                 (set_last_activity_time now s)) t_rel)
    as [Hev Hfin]; try assumption; try reflexivity.
  split; [|exact Hfin].
  rewrite Hev. cbn [map app]. unfold handle_release, release_duration, fire.
  cbn [state_ gesture_start_time_ start_gesture]. rewrite Htap.
  reflexivity.
Qed.

Lemma tap_contact_witness :
  snd (run (display_cfg 30000 true)
         ((1100, [point 50 50]) :: [(1150, [point 52 49])] ++ [(1300, [])])
         awake_idle)
  = [AddRawTouch (point 50 50); AddRawTouch (point 52 49); Fired OnTap;
     TouchesClear].
Proof.
  exact (proj1 (tap_contact (display_cfg 30000 true) awake_idle 1100
                  (point 50 50) [] [(1150, [point 52 49])] 1300
                  eq_refl eq_refl eq_refl eq_refl eq_refl eq_refl eq_refl
                  eq_refl)).
Defined.

Lemma calibrated_x_inverted cfg p :
  swap_xy_ cfg = false -> invert_x_ cfg = true ->
  0 <= x p <= display_width_ cfg -> display_width_ cfg < 2 ^ 31 ->
  x (apply_calibration cfg p) = display_width_ cfg - x p.
Proof.
  intros Hs Hi Hx HW. unfold apply_calibration. cbn [x]. rewrite Hs, Hi.
  rewrite wrap_s32_small by lia. apply clamp_id. lia.
Qed.

(** X13.  Gestures are classified on calibrated coordinates.  On a display
    configured with [invert_x] (and no [swap_xy]), a contact whose second
    sample lies more than 30 raw units to the RIGHT of its first fires the
    swipe-LEFT trigger, and only that trigger. *)
Theorem inverted_display_reverses_swipe cfg s t1 p1 m1 t2 p2 m2 :
  source_driver_ cfg = true ->
  swap_xy_ cfg = false -> invert_x_ cfg = true ->
  on_swipe_left_ cfg = true ->
  display_width_ cfg < 2 ^ 15 ->
  0 <= x p1 <= display_width_ cfg -> 0 <= x p2 <= display_width_ cfg ->
  state_ s = STATE_IDLE ->
  is_sleeping_ s = false ->
  ignore_next_release_ s = false ->
  within_timeout cfg (last_activity_time_ s) [t1; t2] = true ->
  SWIPE_THRESHOLD < x p2 - x p1 ->
  triggers (snd (run cfg [(t1, p1 :: m1); (t2, p2 :: m2)] s)) = [OnSwipeLeft] /\
  state_ (fst (run cfg [(t1, p1 :: m1); (t2, p2 :: m2)] s)) = STATE_DRAGGING.
Proof.
  intros Hsrc Hswap Hinv Hleft HW Hx1 Hx2 Hst Hsl Htrap Hgaps Hmove.
  cbn [within_timeout] in Hgaps.
  apply andb_prop in Hgaps as [Hgap1 Hgaps].
  apply andb_prop in Hgaps as [Hgap2 _].
  apply Z.leb_le in Hgap1, Hgap2.
  rewrite run_cons.
  rewrite (awake_touch_tick cfg t1 p1 m1 s Hsrc Hsl Htrap Hgap1).
  rewrite (first_sample_starts_gesture cfg t1 _ _ Hst). cbn [fst snd app].
  rewrite run_one.
  set (s1 := start_gesture t1 (apply_calibration cfg p1)
               (set_last_activity_time t1 s)).
  assert (Hsx : start_x_ (set_last_activity_time t2 s1)
                = display_width_ cfg - x p1).
  { unfold s1. cbn [start_x_ set_last_activity_time start_gesture].
    rewrite calibrated_x_inverted by (assumption || lia).
    unfold wrap_s16. rewrite Z.mod_small by lia. lia. }
  assert (Hd : x (apply_calibration cfg p2)
               - start_x_ (set_last_activity_time t2 s1)
               = x p1 - x p2).
  { rewrite Hsx, calibrated_x_inverted by (assumption || lia). lia. }
  rewrite (awake_touch_tick cfg t2 p2 m2 s1 Hsrc Hsl Htrap Hgap2).
  rewrite (process_gestures_pending cfg t2 (apply_calibration cfg p2)
             (set_last_activity_time t2 s1) eq_refl)
    by (rewrite Hd; lia).
  rewrite Hd. unfold SWIPE_THRESHOLD in *.
  destruct (Z.ltb_spec 30 (Z.abs (x p1 - x p2))); [|lia].
  destruct (Z.ltb_spec 0 (x p1 - x p2)); [lia|].
  rewrite Hleft. split; reflexivity.
Qed.

Lemma inverted_display_reverses_swipe_witness :
  triggers
    (snd (run mirrored_cfg
            [(1100, [point 100 100]); (1150, [point 140 100])] awake_idle))
  = [OnSwipeLeft].
Proof.
  refine (proj1 (inverted_display_reverses_swipe mirrored_cfg awake_idle
                   1100 (point 100 100) [] 1150 (point 140 100) []
                   eq_refl eq_refl eq_refl eq_refl _ _ _
                   eq_refl eq_refl eq_refl eq_refl _));
    unfold SWIPE_THRESHOLD; cbn; lia.
Defined.

(** * The trigger registry *)

(** X14.  [get_trigger] is an exact lookup by configuration key: each of the
    five keys returns the pointer of its own field (no key is shadowed by an
    earlier comparison), every other string returns [nullptr], and after a
    setter the key of that setter returns what was set while the other four
    keys return what they returned before.  On a component whose setters
    were never called every lookup returns [nullptr]. *)
Theorem get_trigger_lookup cfg :
  (forall k, get_trigger cfg (trigger_name k) = registered cfg k) /\
  (forall conf,
      (forall k, conf <> trigger_name k) -> get_trigger cfg conf = false) /\
  (forall k k' t,
      get_trigger (set_trigger k t cfg) (trigger_name k')
      = if TriggerKind_eqb k k' then t else get_trigger cfg (trigger_name k')) /\
  ((forall k, registered cfg k = false) ->
   forall conf, get_trigger cfg conf = false).
Proof.
  refine (conj _ (conj _ (conj _ _))).
  - intros []; reflexivity.
  - intros conf Hne. unfold get_trigger.
    destruct (String.eqb_spec conf "on_swipe_left") as [E|_];
      [exact (False_ind _ (Hne OnSwipeLeft E))|].
    destruct (String.eqb_spec conf "on_swipe_right") as [E|_];
      [exact (False_ind _ (Hne OnSwipeRight E))|].
    destruct (String.eqb_spec conf "on_tap") as [E|_];
      [exact (False_ind _ (Hne OnTap E))|].
    destruct (String.eqb_spec conf "on_wake") as [E|_];
      [exact (False_ind _ (Hne OnWake E))|].
    destruct (String.eqb_spec conf "on_sleep") as [E|_];
      [exact (False_ind _ (Hne OnSleep E))|].
    reflexivity.
  - intros [] [] t; reflexivity.
  - intros Hnone conf. unfold get_trigger.
    pose proof (Hnone OnSwipeLeft) as H1. pose proof (Hnone OnSwipeRight) as H2.
    pose proof (Hnone OnTap) as H3. pose proof (Hnone OnWake) as H4.
    pose proof (Hnone OnSleep) as H5. cbn in H1, H2, H3, H4, H5.
    rewrite H1, H2, H3, H4, H5.
    repeat match goal with
           | |- context [if ?b then _ else _] => destruct b
           end; reflexivity.
Qed.

Lemma get_trigger_lookup_witness :
  get_trigger (display_cfg 30000 true) "on_press" = false.
Proof.
  destruct (get_trigger_lookup (display_cfg 30000 true)) as (_ & H & _).
  apply H. intros []; discriminate.
Defined.

(** * A component without a source *)

(** X15.  Without a source driver the component is inert: whatever the
    clock readings and however long the run, no call of [loop] changes a
    field or emits anything; in particular it never falls asleep, so the
    sleep trigger never fires. *)
Theorem unbound_source_is_inert cfg ticks :
  source_driver_ cfg = false ->
  forall s, run cfg ticks s = (s, []).
Proof.
  intros Hsrc.
  induction ticks as [|[now tch] ticks IH]; intros s.
  - reflexivity.
  - rewrite run_cons, (loop_unbound cfg now tch s Hsrc). cbn [fst snd].
    rewrite IH. reflexivity.
Qed.

Lemma unbound_source_is_inert_witness :
  run unbound_cfg (wake_click_ticks ++ tap_ticks) (setup 0 initial)
  = (setup 0 initial, []).
Proof.
  apply (unbound_source_is_inert unbound_cfg (wake_click_ticks ++ tap_ticks)).
  reflexivity.
Defined.

End sentio.
